(** * Latency receivers: kernel socket path and DPDK burst path

    Shallow embedding of [benchmarks/kernel_receiver.c] and
    [dpdk_example/udp_multicast_receiver.c].

    - [uint64_t], [uint32_t], [uint16_t] values are [Z] with the wrap-around
      written out ([wrap64], [wrap32], [wrap16]).
    - Packet bytes are [list Byte.byte]; reading [data[i]] is [byte_at].
    - Calls into the operating system or into DPDK (recvfrom, clock_gettime,
      rte_eth_rx_burst, rte_rdtsc, ...) are inputs: each run is driven by a
      script that lists what those calls returned.
    - Integer division can trap, printing is a list of report records whose
      fields are the integers handed to printf (before the conversion to
      double that the display applies). *)

From Stdlib Require Import ZArith List Bool Lia Permutation.
From Stdlib.Strings Require Import Byte.
Import ListNotations.
Open Scope Z_scope.

(** ** Machine integers *)

Definition wrap64 (x : Z) : Z := x mod 2 ^ 64.
Definition wrap32 (x : Z) : Z := x mod 2 ^ 32.
Definition wrap16 (x : Z) : Z := x mod 2 ^ 16.

Definition byte_val (b : byte) : Z := Z.of_N (Byte.to_N b).

(** [data[i]] for a [const uint8_t *data]; positions past the received bytes
    read as 0. *)
Definition byte_at (data : list byte) (i : nat) : Z :=
  byte_val (nth i data x00).

(** Unsigned 64-bit division; [None] is the division by zero trap. *)
Definition udiv64 (a b : Z) : option Z :=
  if b =? 0 then None else Some (a / b).

(** [struct timespec] as filled in by clock_gettime. *)
Record timespec := mkTimespec { tv_sec : Z; tv_nsec : Z }.

(** The value of the big-endian unsigned 64-bit integer held in bytes
    [0,8) of a payload, written as a polynomial in 256. *)
Definition be_u64 (data : list byte) : Z :=
  byte_at data 0 * 256 ^ 7 + byte_at data 1 * 256 ^ 6 +
  byte_at data 2 * 256 ^ 5 + byte_at data 3 * 256 ^ 4 +
  byte_at data 4 * 256 ^ 3 + byte_at data 5 * 256 ^ 2 +
  byte_at data 6 * 256 + byte_at data 7.

(** The value of a 16-bit field in network byte order at offset [off]. *)
Definition be_u16 (data : list byte) (off : nat) : Z :=
  byte_at data off * 256 + byte_at data (S off).

(** ** kernel_receiver.c *)

Module Kernel.

Definition MAX_BUFFER_SIZE : Z := 2048.
Definition NSEC_PER_SEC : Z := 1000000000.
(** errno value of an interrupted system call (Linux). *)
Definition EINTR : Z := 4.

Record stats := mkStats {
  packets_received : Z;
  bytes_received : Z;
  total_latency_ns : Z;
  min_latency_ns : Z;
  max_latency_ns : Z
}.

(** [struct stats stats = {0};] *)
Definition stats0 : stats := mkStats 0 0 0 0 0.

Definition get_timestamp_ns (ts : timespec) : Z :=
  wrap64 (wrap64 (wrap64 (tv_sec ts) * NSEC_PER_SEC) + wrap64 (tv_nsec ts)).

(** The timestamp loop of [process_order_book]:
    [for (i = 0; i < 8; i++) send_time_ns = (send_time_ns << 8) | data[i];] *)
Fixpoint send_time_loop (data : list byte) (i : nat) (n : nat) (send_time_ns : Z) : Z :=
  match n with
  | O => send_time_ns
  | S n' =>
      send_time_loop data (S i) n'
        (Z.lor (wrap64 (Z.shiftl send_time_ns 8)) (byte_at data i))
  end.

Definition send_time_ns (data : list byte) : Z := send_time_loop data 0 8 0.

Definition latency_ns (data : list byte) (recv_time_ns : Z) : Z :=
  wrap64 (recv_time_ns - send_time_ns data).

Definition process_order_book (data : list byte) (len : Z) (recv_time_ns : Z)
    (s : stats) : stats :=
  if len <? 32 then s
  else
    let latency := latency_ns data recv_time_ns in
    let packets := wrap64 (packets_received s + 1) in
    let bytes := wrap64 (bytes_received s + len) in
    let total := wrap64 (total_latency_ns s + latency) in
    let min :=
      if (packets =? 1) || (latency <? min_latency_ns s)
      then latency else min_latency_ns s in
    let max :=
      if latency >? max_latency_ns s then latency else max_latency_ns s in
    mkStats packets bytes total min max.

(** What one [recvfrom] call gave back: a datagram of [n >= 0] bytes, with
    the clock read by the [get_timestamp_ns] call that follows it, or
    [n < 0] with an errno. *)
Inductive recv_outcome :=
| Received (data : list byte) (now : timespec)
| RecvError (errno : Z).

(** One trip through [while (running)]: the value of [running] read by the
    loop test, and what [recvfrom] returns if the body is entered. *)
Record iteration := mkIteration {
  it_running : bool;
  it_recv : recv_outcome
}.

(** The printf calls, with the integer values they are given. *)
Inductive report :=
| Periodic (packets avg_latency_ns min_ns max_ns : Z)
| Final (packets bytes : Z) (latency : option (Z * Z * Z)).

Record loop_state := mkLoop {
  st : stats;
  last_report_time : Z;
  out : list report
}.

Definition report_interval_ns : Z := wrap64 (5 * NSEC_PER_SEC).

(** The block under "Print periodic statistics": the average is an
    unguarded unsigned division. *)
Definition periodic_report (s : stats) : option report :=
  match udiv64 (total_latency_ns s) (packets_received s) with
  | None => None
  | Some avg_latency_ns =>
      Some (Periodic (packets_received s) avg_latency_ns
              (min_latency_ns s) (max_latency_ns s))
  end.

Inductive body_result :=
| Next (ls : loop_state)            (* falls off the body, or [continue] *)
| Break (errno : Z) (ls : loop_state)
| DivideByZero (ls : loop_state).   (* integer division by 0 *)

(** The body of the receive loop of [main]. *)
Definition loop_body (r : recv_outcome) (ls : loop_state) : body_result :=
  match r with
  | RecvError errno =>
      if errno =? EINTR then Next ls else Break errno ls
  | Received buffer now =>
      let n := Z.of_nat (length buffer) in
      let recv_time := get_timestamp_ns now in
      let s := process_order_book buffer n recv_time (st ls) in
      if wrap64 (recv_time - last_report_time ls) >=? report_interval_ns then
        match periodic_report s with
        | None => DivideByZero (mkLoop s (last_report_time ls) (out ls))
        | Some line => Next (mkLoop s recv_time (out ls ++ [line]))
        end
      else Next (mkLoop s (last_report_time ls) (out ls))
  end.

Definition body_state (r : body_result) : loop_state :=
  match r with
  | Next ls => ls
  | Break _ ls => ls
  | DivideByZero ls => ls
  end.

Inductive loop_exit :=
| Cancelled                 (* the loop test read [running == 0] *)
| Fatal (errno : Z)         (* [break] after a failed recvfrom *)
| Trapped                   (* division by zero in the periodic report *)
| StillRunning.             (* the script ended inside the loop *)

Fixpoint receive_loop (script : list iteration) (ls : loop_state)
    : loop_exit * loop_state :=
  match script with
  | [] => (StillRunning, ls)
  | it :: rest =>
      if it_running it then
        match loop_body (it_recv it) ls with
        | Next ls' => receive_loop rest ls'
        | Break errno ls' => (Fatal errno, ls')
        | DivideByZero ls' => (Trapped, ls')
        end
      else (Cancelled, ls)
  end.

(** The block after the loop: "=== Final Statistics ===". *)
Definition final_report (s : stats) : report :=
  Final (packets_received s) (bytes_received s)
    (if packets_received s >? 0 then
       match udiv64 (total_latency_ns s) (packets_received s) with
       | Some avg_latency_ns =>
           Some (avg_latency_ns, min_latency_ns s, max_latency_ns s)
       | None => None
       end
     else None).

(** Return values of the set-up calls of [main]. *)
Record setup := mkSetup {
  socket_ret : Z;
  setsockopt_reuseaddr_ret : Z;
  bind_ret : Z;
  setsockopt_membership_ret : Z
}.

Inductive run_result :=
| Exit (status : Z) (printed : list report)
| Crash (printed : list report)
| NoExit (printed : list report).

Definition main (env : setup) (start : timespec) (script : list iteration)
    : run_result :=
  if socket_ret env <? 0 then Exit 1 []
  else if setsockopt_reuseaddr_ret env <? 0 then Exit 1 []
  else if bind_ret env <? 0 then Exit 1 []
  else if setsockopt_membership_ret env <? 0 then Exit 1 []
  else
    let ls0 := mkLoop stats0 (get_timestamp_ns start) [] in
    match receive_loop script ls0 with
    | (Cancelled, ls) => Exit 0 (out ls ++ [final_report (st ls)])
    | (Fatal _, ls) => Exit 0 (out ls ++ [final_report (st ls)])
    | (Trapped, ls) => Crash (out ls)
    | (StillRunning, ls) => NoExit (out ls)
    end.

(** *** Reference notions for the reports *)

(** The datagram an iteration hands to [process_order_book], with its
    receive timestamp. *)
Definition received_of (it : iteration) : list (list byte * Z) :=
  match it_recv it with
  | Received data now => [(data, get_timestamp_ns now)]
  | RecvError _ => []
  end.

Definition accumulate (dgs : list (list byte * Z)) (s : stats) : stats :=
  fold_left
    (fun acc dg =>
       process_order_book (fst dg) (Z.of_nat (length (fst dg))) (snd dg) acc)
    dgs s.

(** The statistics of everything received since process start. *)
Definition cumulative (its : list iteration) : stats :=
  accumulate (flat_map received_of its) stats0.

Definition is_final (line : report) : bool :=
  match line with
  | Final _ _ _ => true
  | Periodic _ _ _ _ => false
  end.

(** Successive emission times, each at least one interval (in unsigned
    64-bit arithmetic) after the one before. *)
Fixpoint spaced (previous : Z) (times : list Z) : Prop :=
  match times with
  | [] => True
  | t :: rest =>
      wrap64 (t - previous) >= report_interval_ns /\ spaced t rest
  end.

(** [line] is the periodic report of the totals since start, taken right
    after the datagram received at time [t]. *)
Definition emitted (its : list iteration) (s0 : stats) (t : Z) (line : report)
    : Prop :=
  exists k data now,
    nth_error its k = Some (mkIteration true (Received data now)) /\
    get_timestamp_ns now = t /\
    periodic_report (accumulate (flat_map received_of (firstn (S k) its)) s0)
      = Some line.

End Kernel.

(** ** udp_multicast_receiver.c *)

Module Dpdk.

Definition BURST_SIZE : Z := 32.
Definition EXIT_FAILURE : Z := 1.

(** Constants and header layouts of the DPDK and libc headers the file
    includes (rte_ether.h, rte_ip.h, rte_udp.h, netinet/in.h). *)
Definition RTE_ETHER_TYPE_IPV4 : Z := 0x0800.
Definition IPPROTO_UDP : Z := 17.
Definition sizeof_rte_ether_hdr : nat := 14.
Definition sizeof_rte_ipv4_hdr : nat := 20.
Definition sizeof_rte_udp_hdr : nat := 8.
Definition offsetof_ether_type : nat := 12.
Definition offsetof_next_proto_id : nat := 9.
Definition offsetof_dgram_len : nat := 4.

(** A 16-bit field read from memory by a little-endian host (x86-64), and
    the byte swap that [rte_cpu_to_be_16] and [rte_be_to_cpu_16] are there. *)
Definition load_u16 (data : list byte) (off : nat) : Z :=
  byte_at data off + 256 * byte_at data (S off).
Definition bswap16 (x : Z) : Z := (x mod 256) * 256 + (x / 256) mod 256.
Definition rte_cpu_to_be_16 (x : Z) : Z := bswap16 (wrap16 x).
Definition rte_be_to_cpu_16 (x : Z) : Z := bswap16 (wrap16 x).

Record rx_stats := mkRx {
  packets : Z;
  bytes : Z;
  errors : Z;
  total_latency_cycles : Z
}.

(** [static struct rx_stats stats = {0};] *)
Definition stats0 : rx_stats := mkRx 0 0 0 0.

(** A packet buffer: its handle, the memory [rte_pktmbuf_mtod] points at,
    and the [pkt_len] field.  The memory is the data room from the data
    pointer on: the received frame (its first [pkt_len] bytes) followed by
    what the recycled buffer still holds from earlier use.  The data room
    of a buffer of this pool is 2048 bytes, so the header offsets that
    [lcore_main] reads always lie inside it; statements that depend on
    header bytes ask for the memory to cover them. *)
Record rte_mbuf := mkMbuf {
  mbuf_handle : nat;
  mbuf_data : list byte;
  pkt_len : Z
}.

(** A received buffer with what the two [rte_rdtsc] reads around its
    processing return. *)
Record rx_packet := mkRxPacket {
  rx_mbuf : rte_mbuf;
  start_tsc : Z;
  end_tsc : Z
}.

(** The lcore's view: the global [stats] and the buffers handed to
    [rte_pktmbuf_free], in order. *)
Record lcore_state := mkLcore {
  stats : rx_stats;
  freed : list nat
}.

Definition ether_type (m : rte_mbuf) : Z :=
  load_u16 (mbuf_data m) offsetof_ether_type.
Definition next_proto_id (m : rte_mbuf) : Z :=
  byte_at (mbuf_data m) (sizeof_rte_ether_hdr + offsetof_next_proto_id).
Definition dgram_len (m : rte_mbuf) : Z :=
  load_u16 (mbuf_data m)
    (sizeof_rte_ether_hdr + sizeof_rte_ipv4_hdr + offsetof_dgram_len).

(** The two header tests of [lcore_main] and the payload they lead to:
    [payload = (uint8_t * )(udp_hdr + 1)] and the [uint16_t payload_len].
    No length is tested: the bytes are read from the buffer memory at fixed
    offsets, whatever the frame length and the IPv4 header length. *)
Definition udp_payload (m : rte_mbuf) : option (list byte * Z) :=
  if ether_type m =? rte_cpu_to_be_16 RTE_ETHER_TYPE_IPV4 then
    if next_proto_id m =? IPPROTO_UDP then
      Some (skipn (sizeof_rte_ether_hdr + sizeof_rte_ipv4_hdr + sizeof_rte_udp_hdr)
              (mbuf_data m),
            wrap16 (rte_be_to_cpu_16 (dgram_len m) - Z.of_nat sizeof_rte_udp_hdr))
    else None
  else None.

(** [process_order_book_update] ignores both arguments and pauses. *)
Definition process_order_book_update (payload : list byte) (len : Z) : unit := tt.

(** The body of [for (i = 0; i < nb_rx; i++)]. *)
Definition process_packet (p : rx_packet) (ls : lcore_state) : lcore_state :=
  let m := rx_mbuf p in
  let start_cycles := wrap64 (start_tsc p) in
  let s := stats ls in
  let s' :=
    match udp_payload m with
    | Some (payload, payload_len) =>
        let _ := process_order_book_update payload payload_len in
        let end_cycles := wrap64 (end_tsc p) in
        mkRx (wrap64 (packets s + 1))
             (wrap64 (bytes s + wrap32 (pkt_len m)))
             (errors s)
             (wrap64 (total_latency_cycles s + wrap64 (end_cycles - start_cycles)))
    | None => s
    end in
  mkLcore s' (freed ls ++ [mbuf_handle m]).

Definition process_burst (bufs : list rx_packet) (ls : lcore_state) : lcore_state :=
  fold_left (fun acc p => process_packet p acc) bufs ls.

(** One trip through [while (!force_quit)]: the flag read by the loop test
    and the buffers [rte_eth_rx_burst] fills in. *)
Record poll := mkPoll {
  poll_force_quit : bool;
  poll_bufs : list rx_packet
}.

Inductive lcore_result :=
| Returned (ls : lcore_state)
| Polling (ls : lcore_state).

Fixpoint lcore_main (script : list poll) (ls : lcore_state) : lcore_result :=
  match script with
  | [] => Polling ls
  | p :: rest =>
      if poll_force_quit p then Returned ls
      else
        let nb_rx := Z.of_nat (length (poll_bufs p)) in
        if nb_rx =? 0 then lcore_main rest ls
        else lcore_main rest (process_burst (poll_bufs p) ls)
  end.

Definition lcore_state_of (r : lcore_result) : lcore_state :=
  match r with
  | Returned ls => ls
  | Polling ls => ls
  end.

(** [avg_latency_ns] is a double: either the literal 0 or the quotient of
    two unsigned 64-bit values converted to double. *)
Inductive avg_value :=
| AvgZero
| AvgQuotient (numerator denominator : Z).

Record stats_report := mkReport {
  rep_packets : Z;
  rep_bytes : Z;
  rep_errors : Z;
  rep_avg_latency : avg_value
}.

Definition print_stats (hz : Z) (s : rx_stats) : stats_report :=
  let avg_latency_ns :=
    if packets s >? 0 then
      AvgQuotient (wrap64 (total_latency_cycles s * 1000000000))
                  (wrap64 (wrap64 hz * packets s))
    else AvgZero in
  mkReport (packets s) (bytes s) (errors s) avg_latency_ns.

(** Return values of the calls made by [port_init]. *)
Record port_setup := mkPortSetup {
  dev_is_valid_port : bool;
  dev_info_get_ret : Z;
  dev_configure_ret : Z;
  adjust_nb_rx_tx_desc_ret : Z;
  rx_queue_setup_ret : Z;
  tx_queue_setup_ret : Z;
  dev_start_ret : Z;
  promiscuous_enable_ret : Z
}.

Definition port_init (env : port_setup) : Z :=
  if negb (dev_is_valid_port env) then -1
  else if negb (dev_info_get_ret env =? 0) then dev_info_get_ret env
  else if negb (dev_configure_ret env =? 0) then dev_configure_ret env
  else if negb (adjust_nb_rx_tx_desc_ret env =? 0) then adjust_nb_rx_tx_desc_ret env
  else if rx_queue_setup_ret env <? 0 then rx_queue_setup_ret env
  else if tx_queue_setup_ret env <? 0 then tx_queue_setup_ret env
  else if dev_start_ret env <? 0 then dev_start_ret env
  else if negb (promiscuous_enable_ret env =? 0) then promiscuous_enable_ret env
  else 0.

(** Return values of the set-up calls of [main]. *)
Record setup := mkSetup {
  rte_eal_init_ret : Z;
  dev_count_avail : Z;
  mbuf_pool_is_null : bool;
  port_env : port_setup;
  tsc_hz : Z
}.

Inductive run_result :=
| Exit (status : Z) (printed : option stats_report)
| NoExit.

Definition main (env : setup) (script : list poll) : run_result :=
  if rte_eal_init_ret env <? 0 then Exit EXIT_FAILURE None
  else if dev_count_avail env =? 0 then Exit EXIT_FAILURE None
  else if mbuf_pool_is_null env then Exit EXIT_FAILURE None
  else if negb (port_init (port_env env) =? 0) then Exit EXIT_FAILURE None
  else
    match lcore_main script (mkLcore stats0 []) with
    | Returned ls => Exit 0 (Some (print_stats (tsc_hz env) (stats ls)))
    | Polling _ => NoExit
    end.

End Dpdk.

(** ** simple_chardev.c *)

Module Chardev.

Definition BUFFER_SIZE : Z := 256.
(** Values of the kernel headers: errno EFAULT, and the range of error
    codes that [IS_ERR] recognises in a pointer. *)
Definition EFAULT : Z := 14.
Definition MAX_ERRNO : Z := 4095.

(** Conversion to a signed 64-bit ([loff_t], [ssize_t], [long]) and to a
    signed 32-bit ([int]) value. *)
Definition sint64 (x : Z) : Z := (x + 2 ^ 63) mod 2 ^ 64 - 2 ^ 63.
Definition sint32 (x : Z) : Z := (x + 2 ^ 31) mod 2 ^ 32 - 2 ^ 31.

(** [static char device_buffer[BUFFER_SIZE]; static size_t buffer_size;] *)
Record device := mkDevice {
  device_buffer : list byte;
  buffer_size : Z
}.

(** The zero-initialised statics. *)
Definition device0 : device := mkDevice (repeat x00 256) 0.

(** What a read gives back: the return value, [*offset] afterwards, and the
    bytes delivered to the user buffer ([None] after a fault, when the user
    buffer holds whatever the partial copy left). *)
Record read_result := mkRead {
  read_ret : Z;
  read_offset : Z;
  read_data : option (list byte)
}.

(** [not_copied] is the return value of [copy_to_user]. *)
Definition device_read (len : Z) (offset : Z) (not_copied : Z) (d : device)
    : read_result :=
  if wrap64 offset >=? buffer_size d then mkRead 0 offset (Some [])
  else
    let bytes_to_read :=
      Z.min (wrap64 len) (wrap64 (buffer_size d - wrap64 offset)) in
    if negb (not_copied =? 0) then mkRead (- EFAULT) offset None
    else
      mkRead (sint64 bytes_to_read) (sint64 (offset + bytes_to_read))
        (Some (firstn (Z.to_nat bytes_to_read)
                 (skipn (Z.to_nat offset) (device_buffer d)))).

(** [copy_from_user] either copies everything, or faults part of the way
    and leaves the start of the destination holding [partial]. *)
Inductive copy_from_user_result :=
| Copied
| CopyFault (partial : list byte).

(** [dst] with its first [length src] bytes replaced by [src]. *)
Definition overwrite (src dst : list byte) : list byte :=
  src ++ skipn (length src) dst.

(** [buf[i] = b]. *)
Definition store (buf : list byte) (i : nat) (b : byte) : list byte :=
  firstn i buf ++ b :: skipn (S i) buf.

Record write_result := mkWrite {
  write_ret : Z;
  write_offset : Z;
  write_device : device
}.

(** [user] is the [len] bytes at the user pointer. *)
Definition device_write (user : list byte) (offset : Z)
    (copy : copy_from_user_result) (d : device) : write_result :=
  let len := Z.of_nat (length user) in
  let bytes_to_write := Z.min (wrap64 len) (wrap64 (BUFFER_SIZE - 1)) in
  match copy with
  | CopyFault partial =>
      mkWrite (- EFAULT) offset
        (mkDevice
           (overwrite (firstn (Z.to_nat bytes_to_write) partial)
              (device_buffer d))
           (buffer_size d))
  | Copied =>
      let copied :=
        overwrite (firstn (Z.to_nat bytes_to_write) user) (device_buffer d) in
      mkWrite (sint64 bytes_to_write) offset
        (mkDevice (store copied (Z.to_nat bytes_to_write) x00) bytes_to_write)
  end.

(** What the module has registered with the kernel. *)
Inductive resource :=
| Chrdev (major : Z)
| Class (class : Z)
| Device (class : Z) (major : Z).

Definition resource_eqb (a b : resource) : bool :=
  match a, b with
  | Chrdev m, Chrdev m' => m =? m'
  | Class c, Class c' => c =? c'
  | Device c m, Device c' m' => (c =? c') && (m =? m')
  | _, _ => false
  end.

(** Drop the most recent registration of [r]. *)
Fixpoint release (r : resource) (live : list resource) : list resource :=
  match live with
  | [] => []
  | x :: rest => if resource_eqb r x then rest else x :: release r rest
  end.

Definition IS_ERR (ptr : Z) : bool := wrap64 ptr >=? wrap64 (- MAX_ERRNO).
Definition PTR_ERR (ptr : Z) : Z := sint64 ptr.

(** The statics [major_number], [chardev_class], [chardev_device]. *)
Record module_state := mkModule {
  major_number : Z;
  chardev_class : Z;
  chardev_device : Z
}.

(** Return values of [register_chrdev], [class_create], [device_create]. *)
Record init_env := mkInitEnv {
  register_chrdev_ret : Z;
  class_create_ret : Z;
  device_create_ret : Z
}.

Record init_result := mkInit {
  init_ret : Z;
  init_module : module_state;
  init_live : list resource
}.

Definition chardev_init (env : init_env) (m : module_state)
    (live : list resource) : init_result :=
  let major := sint32 (register_chrdev_ret env) in
  if major <? 0 then
    mkInit major (mkModule major (chardev_class m) (chardev_device m)) live
  else
    let live1 := Chrdev major :: live in
    let class := class_create_ret env in
    if IS_ERR class then
      mkInit (sint32 (PTR_ERR class))
        (mkModule major class (chardev_device m))
        (release (Chrdev major) live1)
    else
      let live2 := Class class :: live1 in
      let dev := device_create_ret env in
      if IS_ERR dev then
        mkInit (sint32 (PTR_ERR dev))
          (mkModule major class dev)
          (release (Chrdev major) (release (Class class) live2))
      else
        mkInit 0 (mkModule major class dev) (Device class major :: live2).

Definition chardev_exit (m : module_state) (live : list resource)
    : list resource :=
  release (Chrdev (major_number m))
    (release (Class (chardev_class m))
       (release (Device (chardev_class m) (major_number m)) live)).

End Chardev.

(** ** Reference notions for sequences of messages and frames *)

Definition total (l : list Z) : Z := fold_right Z.add 0 l.
Definition maximum (l : list Z) : Z := fold_right Z.max 0 l.
Definition minimum (first : Z) (l : list Z) : Z := fold_right Z.min first l.

(** A datagram that [process_order_book] accepts, its latency, and the
    latencies and lengths of the accepted ones in a sequence. *)
Definition valid (dg : list byte * Z) : bool :=
  32 <=? Z.of_nat (length (fst dg)).
Definition latency_of (dg : list byte * Z) : Z :=
  Kernel.latency_ns (fst dg) (snd dg).
Definition latencies (dgs : list (list byte * Z)) : list Z :=
  map latency_of (filter valid dgs).
Definition sizes (dgs : list (list byte * Z)) : list Z :=
  map (fun dg => Z.of_nat (length (fst dg))) (filter valid dgs).

(** Every field is a 64-bit value and min does not exceed max. *)
Definition stats_in_range (s : Kernel.stats) : Prop :=
  0 <= Kernel.packets_received s < 2 ^ 64 /\
  0 <= Kernel.bytes_received s < 2 ^ 64 /\
  0 <= Kernel.total_latency_ns s < 2 ^ 64 /\
  0 <= Kernel.min_latency_ns s < 2 ^ 64 /\
  0 <= Kernel.max_latency_ns s < 2 ^ 64 /\
  Kernel.min_latency_ns s <= Kernel.max_latency_ns s.

Definition trapped (e : Kernel.loop_exit) : bool :=
  match e with
  | Kernel.Trapped => true
  | _ => false
  end.

(** Every set-up call of the socket receiver succeeded. *)
Definition setup_succeeds (env : Kernel.setup) : Prop :=
  0 <= Kernel.socket_ret env /\ 0 <= Kernel.setsockopt_reuseaddr_ret env /\
  0 <= Kernel.bind_ret env /\ 0 <= Kernel.setsockopt_membership_ret env.

(** Every initialisation step of the burst receiver succeeded. *)
Definition port_init_succeeds (env : Dpdk.port_setup) : Prop :=
  Dpdk.dev_is_valid_port env = true /\
  Dpdk.dev_info_get_ret env = 0 /\ Dpdk.dev_configure_ret env = 0 /\
  Dpdk.adjust_nb_rx_tx_desc_ret env = 0 /\
  0 <= Dpdk.rx_queue_setup_ret env /\ 0 <= Dpdk.tx_queue_setup_ret env /\
  0 <= Dpdk.dev_start_ret env /\ Dpdk.promiscuous_enable_ret env = 0.
Definition eal_setup_succeeds (env : Dpdk.setup) : Prop :=
  0 <= Dpdk.rte_eal_init_ret env /\ Dpdk.dev_count_avail env <> 0 /\
  Dpdk.mbuf_pool_is_null env = false /\
  port_init_succeeds (Dpdk.port_env env).

(** The character device's buffer has its declared size and the stored
    length leaves room for the terminator. *)
Definition device_ok (d : Chardev.device) : Prop :=
  length (Chardev.device_buffer d) = 256%nat /\
  0 <= Chardev.buffer_size d <= 255.

(** Every registration call of the character device module succeeded. *)
Definition init_succeeds (env : Chardev.init_env) : Prop :=
  0 <= Chardev.sint32 (Chardev.register_chrdev_ret env) /\
  Chardev.IS_ERR (Chardev.class_create_ret env) = false /\
  Chardev.IS_ERR (Chardev.device_create_ret env) = false.

(** Consecutive emission times of the periodic report: each one is either
    at least 5 s after the one before, or earlier than it (the clock was
    set back; the unsigned difference then wraps to a large value). *)
Fixpoint gated (previous : Z) (times : list Z) : Prop :=
  match times with
  | [] => True
  | t :: rest =>
      ((previous <= t /\ 5 * 10 ^ 9 <= t - previous) \/
       (t < previous /\ previous - t <= 2 ^ 64 - 5 * 10 ^ 9)) /\
      gated t rest
  end.

(** The IPv4 header length in 32-bit words, and the length field of the
    UDP header that follows an IPv4 header of that length. *)
Definition ipv4_ihl (data : list byte) : Z := byte_at data 14 mod 16.
Definition udp_length_field (data : list byte) : Z :=
  be_u16 data (14 + 4 * Z.to_nat (ipv4_ihl data) + 4).

(** The two tests of [lcore_main] on the buffer memory: bytes 12-13 hold
    0x0800 and byte 23 holds 17. *)
Definition passes_header_tests (p : Dpdk.rx_packet) : bool :=
  (be_u16 (Dpdk.mbuf_data (Dpdk.rx_mbuf p)) 12 =? 2048) &&
  (byte_at (Dpdk.mbuf_data (Dpdk.rx_mbuf p)) 23 =? 17).

(** The buffers the polling loop receives before it reads [force_quit]. *)
Fixpoint polled (script : list Dpdk.poll) : list Dpdk.rx_packet :=
  match script with
  | [] => []
  | p :: rest =>
      if Dpdk.poll_force_quit p then [] else Dpdk.poll_bufs p ++ polled rest
  end.

Definition is_udp (p : Dpdk.rx_packet) : bool :=
  match Dpdk.udp_payload (Dpdk.rx_mbuf p) with
  | Some _ => true
  | None => false
  end.
Definition cycles (p : Dpdk.rx_packet) : Z :=
  wrap64 (wrap64 (Dpdk.end_tsc p) - wrap64 (Dpdk.start_tsc p)).
Definition handle_of (p : Dpdk.rx_packet) : nat :=
  Dpdk.mbuf_handle (Dpdk.rx_mbuf p).

(** ** Sample inputs *)

Definition zeros (n : nat) : list byte := repeat x00 n.

(** A datagram of [n] bytes whose first eight bytes are [stamp]. *)
Definition datagram (stamp : list byte) (n : nat) : list byte :=
  stamp ++ zeros (n - length stamp).

Definition stamp_of_byte (b : byte) : list byte :=
  [x00; x00; x00; x00; x00; x00; x00; b].

(** An Ethernet frame with the given EtherType bytes, IPv4 protocol byte,
    UDP length bytes and UDP payload. *)
Definition eth_frame (ty_hi ty_lo proto len_hi len_lo : byte)
    (payload : list byte) : list byte :=
  zeros 12 ++ [ty_hi; ty_lo] ++
  zeros 9 ++ [proto] ++ zeros 10 ++
  zeros 4 ++ [len_hi; len_lo] ++ zeros 2 ++
  payload.

(** A UDP frame over IPv4 carrying [payload], [length payload < 248]. *)
Definition udp_frame (len_lo : byte) (payload : list byte) : list byte :=
  eth_frame x08 x00 x11 x00 len_lo payload.

Definition at_ns (ns : Z) : timespec := mkTimespec 0 ns.

Definition setup_ok : Kernel.setup := Kernel.mkSetup 3 0 0 0.

Definition port_ok : Dpdk.port_setup :=
  Dpdk.mkPortSetup true 0 0 0 0 0 0 0.
Definition dpdk_ok : Dpdk.setup :=
  Dpdk.mkSetup 0 1 false port_ok 2000000000.

Definition loop0 (start : timespec) : Kernel.loop_state :=
  Kernel.mkLoop Kernel.stats0 (Kernel.get_timestamp_ns start) [].

Definition seconds (n : Z) : timespec := mkTimespec n 0.

(** Two 40-byte datagrams at 6 s and 7 s with an interrupted wait between
    them, then the stop request. *)
Definition two_datagrams : list Kernel.iteration :=
  [Kernel.mkIteration true (Kernel.Received (zeros 40) (seconds 6));
   Kernel.mkIteration true (Kernel.RecvError Kernel.EINTR);
   Kernel.mkIteration true (Kernel.Received (zeros 40) (seconds 7))].
Definition stop_request : Kernel.iteration :=
  Kernel.mkIteration false (Kernel.RecvError 0).

(** A 16-byte datagram received 5 s after start, before any valid one. *)
Definition short_first : list Kernel.iteration :=
  [Kernel.mkIteration true (Kernel.Received (zeros 16) (seconds 5))].

(** recvfrom fails with EIO (5) on the first call. *)
Definition recv_fails : list Kernel.iteration :=
  [Kernel.mkIteration true (Kernel.RecvError 5)].

(** Receiver clock 15 ns behind the sender on the first message, 20 ns
    ahead on the second. *)
Definition skewed_first : Kernel.stats :=
  Kernel.process_order_book (datagram (stamp_of_byte x73) 40) 40 100
    Kernel.stats0.
Definition skewed_second : Kernel.stats :=
  Kernel.process_order_book (datagram (stamp_of_byte x64) 40) 40 120
    skewed_first.

Definition lcore0 : Dpdk.lcore_state := Dpdk.mkLcore Dpdk.stats0 [].

(** A UDP frame with a 16-byte payload, processed from TSC 1000 to 1010. *)
Definition short_udp_packet : Dpdk.rx_packet :=
  Dpdk.mkRxPacket (Dpdk.mkMbuf 0 (udp_frame x18 (zeros 16)) 58) 1000 1010.

(** A UDP frame with a 32-byte payload stamped [b], processed from TSC 1000
    to 1010. *)
Definition stamped_packet (b : byte) : Dpdk.rx_packet :=
  Dpdk.mkRxPacket
    (Dpdk.mkMbuf 0 (udp_frame x28 (datagram (stamp_of_byte b) 32)) 74)
    1000 1010.

(** An ARP frame (EtherType 0x0806) and an ICMP packet (protocol 1). *)
Definition arp_packet : Dpdk.rx_packet :=
  Dpdk.mkRxPacket
    (Dpdk.mkMbuf 7 (eth_frame x08 x06 x00 x00 x00 (zeros 18)) 60) 1000 1010.
Definition icmp_packet : Dpdk.rx_packet :=
  Dpdk.mkRxPacket
    (Dpdk.mkMbuf 8 (eth_frame x08 x00 x01 x00 x00 (zeros 18)) 60) 1000 1010.

(** A UDP frame whose IPv4 header announces [ihl] as its version and
    header-length byte. *)
Definition frame_with_ihl (ihl : byte) : Dpdk.rte_mbuf :=
  Dpdk.mkMbuf 1
    (zeros 12 ++ [x08; x00] ++ [ihl] ++ zeros 8 ++ [x11] ++ zeros 10 ++
     zeros 4 ++ [x00; x28] ++ zeros 2 ++ zeros 32) 74.


(** A 60-byte UDP frame with a 20-byte IPv4 header (IHL 5) whose UDP
    length field is 3. *)
Definition runt_ihl5_packet : Dpdk.rx_packet :=
  Dpdk.mkRxPacket
    (Dpdk.mkMbuf 3
       (zeros 12 ++ [x08; x00] ++ [x45] ++ zeros 8 ++ [x11] ++ zeros 10 ++
        zeros 4 ++ [x00; x03] ++ zeros 2 ++ zeros 18) 60)
    1000 1010.

(** A 78-byte UDP frame with a 24-byte IPv4 header (IHL 6, four option
    bytes): the UDP header starts at byte 38 with ports 12345 and length
    field 40, and carries 32 payload bytes. *)
Definition ihl6_packet : Dpdk.rx_packet :=
  Dpdk.mkRxPacket
    (Dpdk.mkMbuf 4
       (zeros 12 ++ [x08; x00] ++ [x46] ++ zeros 8 ++ [x11] ++ zeros 10 ++
        zeros 4 ++ [x30; x39; x30; x39; x00; x28; x00; x00] ++ zeros 32) 78)
    1000 1010.

(** A 14-byte frame with EtherType 0x0800 in a recycled buffer that still
    holds, from byte 14 on, an earlier 74-byte UDP frame. *)
Definition stale_packet : Dpdk.rx_packet :=
  Dpdk.mkRxPacket
    (Dpdk.mkMbuf 5
       ((zeros 12 ++ [x08; x00]) ++ skipn 14 (udp_frame x28 (zeros 32))) 14)
    1000 1010.

(** The clock reads 10 s at start and 9 s when the first datagram, 40
    bytes stamped 0, has been received. *)
Definition clock_set_back : list Kernel.iteration :=
  [Kernel.mkIteration true (Kernel.Received (zeros 40) (seconds 9))].

(** A burst with a short UDP frame and an ARP frame, then the stop
    request. *)
Definition one_burst : list Dpdk.poll :=
  [Dpdk.mkPoll false [short_udp_packet; arp_packet]; Dpdk.mkPoll true []].

(** ** Machine integer facts *)

Lemma wrap64_range x : 0 <= wrap64 x < 2 ^ 64.
Proof. unfold wrap64. apply Z.mod_pos_bound. lia. Qed.

Lemma wrap64_small x : 0 <= x < 2 ^ 64 -> wrap64 x = x.
Proof. intros H. unfold wrap64. apply Z.mod_small. exact H. Qed.

Lemma wrap64_idem x : wrap64 (wrap64 x) = wrap64 x.
Proof. apply wrap64_small, wrap64_range. Qed.

Lemma wrap64_shift_neq r : wrap64 (r - 1) <> wrap64 (r - 2).
Proof.
  unfold wrap64. intros Hd.
  assert (Hm : 2 ^ 64 = 18446744073709551616) by reflexivity.
  rewrite Hm in Hd.
  pose proof (Z.div_mod (r - 1) 18446744073709551616 ltac:(lia)) as D1.
  pose proof (Z.div_mod (r - 2) 18446744073709551616 ltac:(lia)) as D2.
  lia.
Qed.

Lemma byte_val_range b : 0 <= byte_val b < 256.
Proof.
  unfold byte_val. pose proof (Byte.to_N_bounded b). lia.
Qed.

Lemma byte_at_range data i : 0 <= byte_at data i < 256.
Proof. apply byte_val_range. Qed.

Lemma byte_at_firstn data k i : (i < k)%nat ->
  byte_at (firstn k data) i = byte_at data i.
Proof.
  intros H. unfold byte_at. f_equal.
  revert k i H. induction data as [|b data IH]; intros k i H.
  - rewrite firstn_nil. reflexivity.
  - destruct k as [|k]; [lia|]. destruct i as [|i]; simpl; [reflexivity|].
    apply IH. lia.
Qed.

(** Or-ing a byte into a value shifted left by eight bits adds it. *)
Lemma lor_shifted_byte x b : 0 <= b < 256 -> Z.lor (x * 256) b = x * 256 + b.
Proof.
  intros Hb. rewrite <- Z.add_lor_land.
  assert (Hland : Z.land (x * 256) b = 0).
  { apply Z.bits_inj'. intros n Hn.
    rewrite Z.land_spec, Z.bits_0.
    destruct (Z.lt_ge_cases n 8) as [Hlt|Hge].
    - change 256 with (2 ^ 8). rewrite Z.mul_pow2_bits_low by lia. reflexivity.
    - destruct (Z.eq_dec b 0) as [->|Hnz].
      + rewrite Z.bits_0. apply andb_false_r.
      + rewrite (Z.bits_above_log2 b n); [apply andb_false_r|lia|].
        apply Z.lt_le_trans with 8; [|exact Hge].
        apply Z.log2_lt_pow2; lia. }
  rewrite Hland. lia.
Qed.

Lemma send_time_step x b :
  0 <= x < 2 ^ 56 -> 0 <= b < 256 ->
  Z.lor (wrap64 (Z.shiftl x 8)) b = x * 256 + b.
Proof.
  intros Hx Hb. rewrite Z.shiftl_mul_pow2 by lia.
  change (2 ^ 8) with 256. rewrite wrap64_small by lia.
  apply lor_shifted_byte. exact Hb.
Qed.

(** The shift-and-or loop reads bytes [0,8) as a big-endian integer. *)
Lemma send_time_ns_be data : Kernel.send_time_ns data = be_u64 data.
Proof.
  unfold Kernel.send_time_ns, be_u64. cbn [Kernel.send_time_loop].
  pose proof (byte_at_range data 0). pose proof (byte_at_range data 1).
  pose proof (byte_at_range data 2). pose proof (byte_at_range data 3).
  pose proof (byte_at_range data 4). pose proof (byte_at_range data 5).
  pose proof (byte_at_range data 6). pose proof (byte_at_range data 7).
  repeat match goal with
  | |- context [Z.lor (wrap64 (Z.shiftl ?x 8)) ?b] =>
      rewrite (send_time_step x b) by (try assumption; lia)
  end.
  lia.
Qed.

Lemma be_u64_range data : 0 <= be_u64 data < 2 ^ 64.
Proof.
  unfold be_u64.
  pose proof (byte_at_range data 0). pose proof (byte_at_range data 1).
  pose proof (byte_at_range data 2). pose proof (byte_at_range data 3).
  pose proof (byte_at_range data 4). pose proof (byte_at_range data 5).
  pose proof (byte_at_range data 6). pose proof (byte_at_range data 7).
  lia.
Qed.

Lemma be_u64_firstn data : be_u64 (firstn 8 data) = be_u64 data.
Proof.
  unfold be_u64. rewrite !byte_at_firstn by lia. reflexivity.
Qed.

(** ** The accumulator of kernel_receiver.c *)

Lemma process_order_book_short data len recv_time s :
  len < 32 -> Kernel.process_order_book data len recv_time s = s.
Proof.
  intros H. unfold Kernel.process_order_book.
  destruct (Z.ltb_spec len 32); [reflexivity|lia].
Qed.

Lemma process_order_book_valid data len recv_time s :
  32 <= len ->
  Kernel.process_order_book data len recv_time s =
    let latency := Kernel.latency_ns data recv_time in
    let packets := wrap64 (Kernel.packets_received s + 1) in
    Kernel.mkStats packets
      (wrap64 (Kernel.bytes_received s + len))
      (wrap64 (Kernel.total_latency_ns s + latency))
      (if (packets =? 1) || (latency <? Kernel.min_latency_ns s)
       then latency else Kernel.min_latency_ns s)
      (if latency >? Kernel.max_latency_ns s
       then latency else Kernel.max_latency_ns s).
Proof.
  intros H. unfold Kernel.process_order_book.
  destruct (Z.ltb_spec len 32); [lia|reflexivity].
Qed.

Lemma latency_ns_range data recv_time :
  0 <= Kernel.latency_ns data recv_time < 2 ^ 64.
Proof. apply wrap64_range. Qed.

(** The three samples of the accumulator example: length 40, send
    timestamp 0, received at 50, 10 and 90 ns. *)
Lemma three_samples :
  fold_left (fun s t => Kernel.process_order_book (zeros 40) 40 t s)
    [50; 10; 90] Kernel.stats0
  = Kernel.mkStats 3 120 150 10 90.
Proof. vm_compute. reflexivity. Qed.

(** C3. On a valid sample (length at least 32) [process_order_book] adds 1
    to the packet count, the length to the byte total and the latency to the
    latency sum (unsigned 64-bit additions, exact when they do not overflow);
    the first sample into a fresh accumulator seeds min and max; later
    samples replace min exactly when the latency is strictly lower and max
    exactly when it is strictly higher.  Latencies 50, 10, 90 with length 40
    into a fresh accumulator give count 3, bytes 120, min 10, max 90 and
    average 50. *)
Theorem C3_accumulate data len recv_time s :
  32 <= len ->
  let latency := Kernel.latency_ns data recv_time in
  let s' := Kernel.process_order_book data len recv_time s in
  let first := Kernel.process_order_book data len recv_time Kernel.stats0 in
  Kernel.packets_received s' = wrap64 (Kernel.packets_received s + 1) /\
  Kernel.bytes_received s' = wrap64 (Kernel.bytes_received s + len) /\
  Kernel.total_latency_ns s' = wrap64 (Kernel.total_latency_ns s + latency) /\
  (0 <= Kernel.packets_received s < 2 ^ 64 - 1 ->
     Kernel.packets_received s' = Kernel.packets_received s + 1) /\
  (0 <= Kernel.bytes_received s + len < 2 ^ 64 ->
     Kernel.bytes_received s' = Kernel.bytes_received s + len) /\
  (0 <= Kernel.total_latency_ns s + latency < 2 ^ 64 ->
     Kernel.total_latency_ns s' = Kernel.total_latency_ns s + latency) /\
  Kernel.packets_received first = 1 /\
  Kernel.min_latency_ns first = latency /\
  Kernel.max_latency_ns first = latency /\
  (0 < Kernel.packets_received s < 2 ^ 64 ->
     Kernel.min_latency_ns s' =
       if latency <? Kernel.min_latency_ns s
       then latency else Kernel.min_latency_ns s) /\
  Kernel.max_latency_ns s' =
    (if latency >? Kernel.max_latency_ns s
     then latency else Kernel.max_latency_ns s) /\
  Kernel.final_report
    (fold_left (fun a t => Kernel.process_order_book (zeros 40) 40 t a)
       [50; 10; 90] Kernel.stats0)
  = Kernel.Final 3 120 (Some (50, 10, 90)).
Proof.
  intros Hlen latency s' first. subst s' first.
  rewrite !process_order_book_valid by exact Hlen. cbv zeta. cbn [Kernel.packets_received
    Kernel.bytes_received Kernel.total_latency_ns Kernel.min_latency_ns
    Kernel.max_latency_ns Kernel.stats0].
  fold latency. pose proof (latency_ns_range data recv_time) as Hlat. fold latency in Hlat.
  repeat apply conj; try reflexivity; try (rewrite three_samples; reflexivity).
  - intros H. apply wrap64_small. lia.
  - intros H. apply wrap64_small. exact H.
  - intros H. apply wrap64_small. exact H.
  - destruct (Z.gtb_spec latency 0); lia.
  - intros H.
    assert (Hne : (wrap64 (Kernel.packets_received s + 1) =? 1) = false).
    { apply Z.eqb_neq. unfold wrap64.
      destruct (Z.eq_dec (Kernel.packets_received s + 1) (2 ^ 64)) as [E|E].
      - rewrite E. rewrite Z.mod_same by lia. lia.
      - rewrite Z.mod_small by lia. lia. }
    rewrite Hne. reflexivity.
Qed.

Lemma C3_accumulate_witness :
  32 <= 40 /\
  Kernel.min_latency_ns
    (Kernel.process_order_book (zeros 40) 40 10 (Kernel.mkStats 1 40 50 50 50))
  = (if Kernel.latency_ns (zeros 40) 10 <? 50
     then Kernel.latency_ns (zeros 40) 10 else 50).
Proof.
  split; [lia|].
  apply (C3_accumulate (zeros 40) 40 10 (Kernel.mkStats 1 40 50 50 50)); simpl; lia.
Defined.

(** ** Frame decoding and accounting of udp_multicast_receiver.c *)

Lemma ether_type_ipv4 m :
  Dpdk.ether_type m = Dpdk.rte_cpu_to_be_16 Dpdk.RTE_ETHER_TYPE_IPV4 <->
  be_u16 (Dpdk.mbuf_data m) 12 = Dpdk.RTE_ETHER_TYPE_IPV4.
Proof.
  unfold Dpdk.ether_type, Dpdk.load_u16, be_u16, Dpdk.offsetof_ether_type.
  change (Dpdk.rte_cpu_to_be_16 Dpdk.RTE_ETHER_TYPE_IPV4) with 8.
  change Dpdk.RTE_ETHER_TYPE_IPV4 with 2048.
  pose proof (byte_at_range (Dpdk.mbuf_data m) 12).
  pose proof (byte_at_range (Dpdk.mbuf_data m) 13).
  lia.
Qed.

Lemma dgram_len_host_order m :
  Dpdk.rte_be_to_cpu_16 (Dpdk.dgram_len m) = be_u16 (Dpdk.mbuf_data m) 38.
Proof.
  unfold Dpdk.rte_be_to_cpu_16, Dpdk.bswap16, wrap16, Dpdk.dgram_len,
    Dpdk.load_u16, be_u16.
  change (Dpdk.sizeof_rte_ether_hdr + Dpdk.sizeof_rte_ipv4_hdr
          + Dpdk.offsetof_dgram_len)%nat with 38%nat.
  pose proof (byte_at_range (Dpdk.mbuf_data m) 38) as H0.
  pose proof (byte_at_range (Dpdk.mbuf_data m) 39) as H1.
  set (a := byte_at (Dpdk.mbuf_data m) 38) in *.
  set (b := byte_at (Dpdk.mbuf_data m) 39) in *.
  rewrite (Z.mod_small (a + 256 * b)) by lia.
  replace (a + 256 * b) with (a + b * 256) by lia.
  rewrite Z.mod_add, Z.div_add by lia.
  rewrite (Z.mod_small a), (Z.div_small a) by lia.
  rewrite Z.mod_small by lia. lia.
Qed.

(** The decoder yields a payload exactly for Ethernet/IPv4/UDP frames. *)
Lemma udp_payload_some m :
  be_u16 (Dpdk.mbuf_data m) 12 = Dpdk.RTE_ETHER_TYPE_IPV4 ->
  byte_at (Dpdk.mbuf_data m) 23 = Dpdk.IPPROTO_UDP ->
  Dpdk.udp_payload m =
    Some (skipn 42 (Dpdk.mbuf_data m),
          wrap16 (be_u16 (Dpdk.mbuf_data m) 38 - 8)).
Proof.
  intros Heth Hip. unfold Dpdk.udp_payload.
  apply ether_type_ipv4 in Heth. rewrite Heth, Z.eqb_refl.
  unfold Dpdk.next_proto_id.
  change (Dpdk.sizeof_rte_ether_hdr + Dpdk.offsetof_next_proto_id)%nat
    with 23%nat.
  rewrite Hip, Z.eqb_refl, dgram_len_host_order. reflexivity.
Qed.

Lemma udp_payload_none m :
  be_u16 (Dpdk.mbuf_data m) 12 <> Dpdk.RTE_ETHER_TYPE_IPV4 \/
  byte_at (Dpdk.mbuf_data m) 23 <> Dpdk.IPPROTO_UDP ->
  Dpdk.udp_payload m = None.
Proof.
  intros H. unfold Dpdk.udp_payload.
  destruct (Z.eqb_spec (Dpdk.ether_type m)
              (Dpdk.rte_cpu_to_be_16 Dpdk.RTE_ETHER_TYPE_IPV4)) as [E|E];
    [|reflexivity].
  apply ether_type_ipv4 in E.
  destruct (Z.eqb_spec (Dpdk.next_proto_id m) Dpdk.IPPROTO_UDP) as [E'|E'];
    [|reflexivity].
  destruct H as [H|H]; [contradiction|]. exfalso. apply H. exact E'.
Qed.

Lemma udp_payload_inv m payload len :
  Dpdk.udp_payload m = Some (payload, len) ->
  be_u16 (Dpdk.mbuf_data m) 12 = Dpdk.RTE_ETHER_TYPE_IPV4 /\
  byte_at (Dpdk.mbuf_data m) 23 = Dpdk.IPPROTO_UDP /\
  payload = skipn 42 (Dpdk.mbuf_data m) /\
  len = wrap16 (be_u16 (Dpdk.mbuf_data m) 38 - 8).
Proof.
  intros H.
  destruct (Z.eq_dec (be_u16 (Dpdk.mbuf_data m) 12) Dpdk.RTE_ETHER_TYPE_IPV4)
    as [E1|E1]; [|rewrite udp_payload_none in H by (left; exact E1); discriminate].
  destruct (Z.eq_dec (byte_at (Dpdk.mbuf_data m) 23) Dpdk.IPPROTO_UDP)
    as [E2|E2]; [|rewrite udp_payload_none in H by (right; exact E2); discriminate].
  rewrite (udp_payload_some m E1 E2) in H. inversion H. auto.
Qed.

Lemma process_packet_udp p ls payload len :
  Dpdk.udp_payload (Dpdk.rx_mbuf p) = Some (payload, len) ->
  Dpdk.stats (Dpdk.process_packet p ls) =
    Dpdk.mkRx
      (wrap64 (Dpdk.packets (Dpdk.stats ls) + 1))
      (wrap64 (Dpdk.bytes (Dpdk.stats ls) + wrap32 (Dpdk.pkt_len (Dpdk.rx_mbuf p))))
      (Dpdk.errors (Dpdk.stats ls))
      (wrap64 (Dpdk.total_latency_cycles (Dpdk.stats ls)
               + wrap64 (wrap64 (Dpdk.end_tsc p) - wrap64 (Dpdk.start_tsc p)))).
Proof.
  intros H. unfold Dpdk.process_packet. rewrite H. reflexivity.
Qed.

Lemma process_packet_other p ls :
  Dpdk.udp_payload (Dpdk.rx_mbuf p) = None ->
  Dpdk.stats (Dpdk.process_packet p ls) = Dpdk.stats ls.
Proof.
  intros H. unfold Dpdk.process_packet. rewrite H. reflexivity.
Qed.

Lemma process_packet_freed p ls :
  Dpdk.freed (Dpdk.process_packet p ls) =
  Dpdk.freed ls ++ [Dpdk.mbuf_handle (Dpdk.rx_mbuf p)].
Proof. reflexivity. Qed.

(** ** Latency of a message on the two paths *)

(** Against C1 read on the burst path: two frames that differ only in the
    stamp of their 32-byte payloads are charged the same 10 cycles, which no receive
    timestamp turns into receive time minus send time for both. *)
Lemma C1_burst_latency_ignores_stamp :
  Dpdk.udp_payload (Dpdk.rx_mbuf (stamped_packet x01))
    = Some (datagram (stamp_of_byte x01) 32, 32) /\
  Dpdk.udp_payload (Dpdk.rx_mbuf (stamped_packet x02))
    = Some (datagram (stamp_of_byte x02) 32, 32) /\
  Dpdk.total_latency_cycles
    (Dpdk.stats (Dpdk.process_packet (stamped_packet x01) lcore0)) = 10 /\
  Dpdk.total_latency_cycles
    (Dpdk.stats (Dpdk.process_packet (stamped_packet x02) lcore0)) = 10 /\
  ~ (exists receive_timestamp_ns,
       10 = wrap64 (receive_timestamp_ns
                    - be_u64 (datagram (stamp_of_byte x01) 32)) /\
       10 = wrap64 (receive_timestamp_ns
                    - be_u64 (datagram (stamp_of_byte x02) 32))).
Proof.
  split; [vm_compute; reflexivity|].
  split; [vm_compute; reflexivity|].
  split; [vm_compute; reflexivity|].
  split; [vm_compute; reflexivity|].
  assert (E1 : be_u64 (datagram (stamp_of_byte x01) 32) = 1)
    by (vm_compute; reflexivity).
  assert (E2 : be_u64 (datagram (stamp_of_byte x02) 32) = 2)
    by (vm_compute; reflexivity).
  rewrite E1, E2. intros [r [H1 H2]].
  apply (wrap64_shift_neq r). congruence.
Qed.

(** C1, as the code has it. On the socket path a message of at least 32 bytes is
    charged [recv_time - send_time] in unsigned 64-bit arithmetic, where
    [send_time] is the big-endian integer in payload bytes [0,8); the value
    depends on those eight bytes and the receive timestamp only.  On the
    burst path every Ethernet/IPv4/UDP frame is charged the TSC cycles
    between the two [rte_rdtsc] reads around its processing, whatever its
    payload holds. *)
Theorem C1_latency data recv_time s p ls payload len :
  32 <= Z.of_nat (length data) ->
  Dpdk.udp_payload (Dpdk.rx_mbuf p) = Some (payload, len) ->
  Kernel.latency_ns data recv_time = wrap64 (recv_time - be_u64 data) /\
  Kernel.total_latency_ns
    (Kernel.process_order_book data (Z.of_nat (length data)) recv_time s)
    = wrap64 (Kernel.total_latency_ns s + wrap64 (recv_time - be_u64 data)) /\
  (forall data', firstn 8 data' = firstn 8 data ->
     Kernel.latency_ns data' recv_time = Kernel.latency_ns data recv_time) /\
  Dpdk.total_latency_cycles (Dpdk.stats (Dpdk.process_packet p ls))
    = wrap64 (Dpdk.total_latency_cycles (Dpdk.stats ls)
              + wrap64 (wrap64 (Dpdk.end_tsc p) - wrap64 (Dpdk.start_tsc p))).
Proof.
  intros Hlen Hudp.
  assert (Hlat : forall d, Kernel.latency_ns d recv_time
                           = wrap64 (recv_time - be_u64 d)).
  { intros d. unfold Kernel.latency_ns. rewrite send_time_ns_be. reflexivity. }
  repeat apply conj.
  - apply Hlat.
  - rewrite process_order_book_valid by exact Hlen. cbv zeta.
    cbn [Kernel.total_latency_ns]. rewrite Hlat. reflexivity.
  - intros data' Hfirst. rewrite !Hlat.
    rewrite <- (be_u64_firstn data'), Hfirst, be_u64_firstn. reflexivity.
  - rewrite (process_packet_udp p ls payload len Hudp). reflexivity.
Qed.

Lemma C1_latency_witness :
  32 <= Z.of_nat (length (datagram (stamp_of_byte x07) 40)) /\
  Dpdk.udp_payload (Dpdk.rx_mbuf (stamped_packet x01))
    = Some (datagram (stamp_of_byte x01) 32, 32) /\
  Kernel.latency_ns (datagram (stamp_of_byte x07) 40) 5
    = wrap64 (5 - be_u64 (datagram (stamp_of_byte x07) 40)).
Proof.
  assert (H1 : 32 <= Z.of_nat (length (datagram (stamp_of_byte x07) 40)))
    by (vm_compute; discriminate).
  assert (H2 : Dpdk.udp_payload (Dpdk.rx_mbuf (stamped_packet x01))
               = Some (datagram (stamp_of_byte x01) 32, 32))
    by (vm_compute; reflexivity).
  split; [exact H1|]. split; [exact H2|].
  exact (proj1 (C1_latency (datagram (stamp_of_byte x07) 40) 5 Kernel.stats0
                  (stamped_packet x01) lcore0 _ _ H1 H2)).
Defined.

(** ** Messages shorter than 32 bytes *)

(** Against C4 read on the burst path: a UDP frame whose payload is 16
    bytes long is counted. *)
Lemma C4_burst_counts_short_payload :
  Dpdk.udp_payload (Dpdk.rx_mbuf short_udp_packet) = Some (zeros 16, 16) /\
  16 < 32 /\
  Dpdk.stats lcore0 = Dpdk.mkRx 0 0 0 0 /\
  Dpdk.stats (Dpdk.process_packet short_udp_packet lcore0)
    = Dpdk.mkRx 1 58 0 10.
Proof. repeat apply conj; try lia; vm_compute; reflexivity. Qed.

(** C4, as the code has it. On the socket path a message shorter than 32 bytes leaves
    every field of the statistics as it was, inside [process_order_book]
    and across the loop body that calls it.  The burst path does not look at
    the payload length: every Ethernet/IPv4/UDP frame adds 1 to the packet
    count, its [pkt_len] to the byte total and its cycles to the latency
    total. *)
Theorem C4_short_message data len recv_time s now ks p ls payload plen :
  len < 32 ->
  Z.of_nat (length data) < 32 ->
  Dpdk.udp_payload (Dpdk.rx_mbuf p) = Some (payload, plen) ->
  Kernel.process_order_book data len recv_time s = s /\
  Kernel.st (Kernel.body_state (Kernel.loop_body (Kernel.Received data now) ks))
    = Kernel.st ks /\
  Dpdk.packets (Dpdk.stats (Dpdk.process_packet p ls))
    = wrap64 (Dpdk.packets (Dpdk.stats ls) + 1) /\
  Dpdk.bytes (Dpdk.stats (Dpdk.process_packet p ls))
    = wrap64 (Dpdk.bytes (Dpdk.stats ls) + wrap32 (Dpdk.pkt_len (Dpdk.rx_mbuf p))) /\
  Dpdk.total_latency_cycles (Dpdk.stats (Dpdk.process_packet p ls))
    = wrap64 (Dpdk.total_latency_cycles (Dpdk.stats ls)
              + wrap64 (wrap64 (Dpdk.end_tsc p) - wrap64 (Dpdk.start_tsc p))).
Proof.
  intros Hlen Hdata Hudp.
  rewrite (process_packet_udp p ls payload plen Hudp).
  repeat apply conj; try reflexivity.
  - apply process_order_book_short. exact Hlen.
  - unfold Kernel.loop_body.
    rewrite (process_order_book_short data _ _ _ Hdata).
    destruct (_ >=? _); [|reflexivity].
    destruct (Kernel.periodic_report _); reflexivity.
Qed.

Lemma C4_short_message_witness :
  16 < 32 /\
  Z.of_nat (length (zeros 16)) < 32 /\
  Dpdk.udp_payload (Dpdk.rx_mbuf short_udp_packet) = Some (zeros 16, 16) /\
  Kernel.process_order_book (zeros 16) 16 100 (Kernel.mkStats 1 40 50 50 50)
    = Kernel.mkStats 1 40 50 50 50.
Proof.
  assert (H2 : Z.of_nat (length (zeros 16)) < 32) by (vm_compute; reflexivity).
  assert (H3 : Dpdk.udp_payload (Dpdk.rx_mbuf short_udp_packet)
               = Some (zeros 16, 16)) by (vm_compute; reflexivity).
  split; [lia|]. split; [exact H2|]. split; [exact H3|].
  exact (proj1 (C4_short_message (zeros 16) 16 100 (Kernel.mkStats 1 40 50 50 50)
                  (at_ns 100) (Kernel.mkLoop Kernel.stats0 0 [])
                  short_udp_packet lcore0 _ _ ltac:(lia) H2 H3)).
Defined.

(** A 16-byte datagram followed by a valid 40-byte one with latency 100:
    the count is 1. *)
Example short_then_valid :
  Kernel.process_order_book (zeros 40) 40 100
    (Kernel.process_order_book (zeros 16) 16 90 Kernel.stats0)
  = Kernel.mkStats 1 40 100 100 100.
Proof. vm_compute. reflexivity. Qed.

(** ** Frames that are not UDP over IPv4, and buffer release *)

Lemma be_u16_range data off : 0 <= be_u16 data off < 2 ^ 16.
Proof.
  unfold be_u16.
  pose proof (byte_at_range data off). pose proof (byte_at_range data (S off)).
  lia.
Qed.

Lemma process_burst_freed bufs ls :
  Dpdk.freed (Dpdk.process_burst bufs ls) =
  Dpdk.freed ls ++ map (fun p => Dpdk.mbuf_handle (Dpdk.rx_mbuf p)) bufs.
Proof.
  unfold Dpdk.process_burst. revert ls.
  induction bufs as [|p bufs IH]; intros ls; simpl.
  - rewrite app_nil_r. reflexivity.
  - rewrite IH, process_packet_freed, <- app_assoc. reflexivity.
Qed.

(** Against C7 as stated: the payload length is not always the UDP length
    field minus the UDP header size.  A frame with a 20-byte IPv4 header
    and a UDP length field of 3 is given payload length 65531; a frame with
    a 24-byte IPv4 header, whose UDP length field is 40, is given payload
    length 12337, read from the bytes of its source port. *)
Lemma C7_payload_length_is_not_field_minus_header :
  ipv4_ihl (Dpdk.mbuf_data (Dpdk.rx_mbuf runt_ihl5_packet)) = 5 /\
  udp_length_field (Dpdk.mbuf_data (Dpdk.rx_mbuf runt_ihl5_packet)) = 3 /\
  Dpdk.udp_payload (Dpdk.rx_mbuf runt_ihl5_packet) = Some (zeros 18, 65531) /\
  65531 <> 3 - 8 /\
  ipv4_ihl (Dpdk.mbuf_data (Dpdk.rx_mbuf ihl6_packet)) = 6 /\
  udp_length_field (Dpdk.mbuf_data (Dpdk.rx_mbuf ihl6_packet)) = 40 /\
  Dpdk.udp_payload (Dpdk.rx_mbuf ihl6_packet)
    = Some ([x00; x28; x00; x00] ++ zeros 32, 12337) /\
  12337 <> 40 - 8.
Proof.
  split; [vm_compute; reflexivity|].
  split; [vm_compute; reflexivity|].
  split; [vm_compute; reflexivity|].
  split; [lia|].
  split; [vm_compute; reflexivity|].
  split; [vm_compute; reflexivity|].
  split; [vm_compute; reflexivity|lia].
Qed.

(** C7, as the code has it.  For a buffer whose memory covers the 42 header
    bytes (every frame of at least 42 bytes): if bytes 12-13 are not 0x0800
    or byte 23 is not 17 the statistics stay as they were; the buffer is
    handed to [rte_pktmbuf_free] exactly once, counted or not (also across
    a whole burst); a payload is produced exactly when bytes 12-13 are
    0x0800 and byte 23 is 17, it starts at byte 42 and its length is the
    16-bit value at bytes 38-39 minus 8 as a [uint16_t].  That value is the
    UDP length field when the IPv4 header is 20 bytes long (IHL 5); the
    subtraction is exact when it is at least 8 and wraps to the value plus
    65528 below. *)
Theorem C7_frame_decoding p ls bufs :
  let m := Dpdk.rx_mbuf p in
  let data := Dpdk.mbuf_data m in
  let ls' := Dpdk.process_packet p ls in
  (42 <= length data)%nat ->
  (be_u16 data 12 <> Dpdk.RTE_ETHER_TYPE_IPV4 \/
   byte_at data 23 <> Dpdk.IPPROTO_UDP ->
     Dpdk.udp_payload m = None /\ Dpdk.stats ls' = Dpdk.stats ls) /\
  Dpdk.freed ls' = Dpdk.freed ls ++ [Dpdk.mbuf_handle m] /\
  count_occ Nat.eq_dec (Dpdk.freed ls') (Dpdk.mbuf_handle m)
    = S (count_occ Nat.eq_dec (Dpdk.freed ls) (Dpdk.mbuf_handle m)) /\
  Dpdk.freed (Dpdk.process_burst bufs ls)
    = Dpdk.freed ls ++ map (fun q => Dpdk.mbuf_handle (Dpdk.rx_mbuf q)) bufs /\
  (forall payload len,
     Dpdk.udp_payload m = Some (payload, len) ->
     be_u16 data 12 = Dpdk.RTE_ETHER_TYPE_IPV4 /\
     byte_at data 23 = Dpdk.IPPROTO_UDP /\
     payload = skipn 42 data /\
     len = wrap16 (be_u16 data 38 - 8) /\
     (8 <= be_u16 data 38 -> len = be_u16 data 38 - 8) /\
     (be_u16 data 38 < 8 -> len = be_u16 data 38 + 65528)) /\
  (be_u16 data 12 = Dpdk.RTE_ETHER_TYPE_IPV4 ->
   byte_at data 23 = Dpdk.IPPROTO_UDP ->
     Dpdk.udp_payload m
       = Some (skipn 42 data, wrap16 (be_u16 data 38 - 8))) /\
  (ipv4_ihl data = 5 -> udp_length_field data = be_u16 data 38).
Proof.
  intros m data ls' Hroom. subst ls' data.
  repeat apply conj.
  - intros H. pose proof (udp_payload_none m H) as Hn.
    split; [exact Hn|]. apply process_packet_other. exact Hn.
  - apply process_packet_freed.
  - rewrite process_packet_freed, count_occ_app. fold m. cbn [count_occ].
    destruct (Nat.eq_dec (Dpdk.mbuf_handle m) (Dpdk.mbuf_handle m));
      [apply Nat.add_1_r|contradiction].
  - apply process_burst_freed.
  - intros payload len H.
    destruct (udp_payload_inv m payload len H) as (E1 & E2 & E3 & E4).
    pose proof (be_u16_range (Dpdk.mbuf_data m) 38) as Hr.
    repeat apply conj; try assumption.
    + intros Hge. rewrite E4. unfold wrap16. apply Z.mod_small. lia.
    + intros Hlt. rewrite E4. unfold wrap16.
      replace (be_u16 (Dpdk.mbuf_data m) 38 - 8)
        with (be_u16 (Dpdk.mbuf_data m) 38 + 65528 + (-1) * 2 ^ 16) by lia.
      rewrite Z.mod_add by lia. apply Z.mod_small. lia.
  - apply udp_payload_some.
  - intros Hihl. unfold udp_length_field. rewrite Hihl. reflexivity.
Qed.

Lemma C7_frame_decoding_witness :
  (42 <= length (Dpdk.mbuf_data (Dpdk.rx_mbuf arp_packet)))%nat /\
  (be_u16 (Dpdk.mbuf_data (Dpdk.rx_mbuf arp_packet)) 12
     <> Dpdk.RTE_ETHER_TYPE_IPV4 \/
   byte_at (Dpdk.mbuf_data (Dpdk.rx_mbuf arp_packet)) 23
     <> Dpdk.IPPROTO_UDP) /\
  Dpdk.udp_payload (Dpdk.rx_mbuf arp_packet) = None /\
  Dpdk.stats (Dpdk.process_packet arp_packet lcore0) = Dpdk.stats lcore0.
Proof.
  assert (Hroom : (42 <= length (Dpdk.mbuf_data (Dpdk.rx_mbuf arp_packet)))%nat)
    by (vm_compute; repeat constructor).
  assert (H : be_u16 (Dpdk.mbuf_data (Dpdk.rx_mbuf arp_packet)) 12
                <> Dpdk.RTE_ETHER_TYPE_IPV4 \/
              byte_at (Dpdk.mbuf_data (Dpdk.rx_mbuf arp_packet)) 23
                <> Dpdk.IPPROTO_UDP)
    by (left; vm_compute; discriminate).
  split; [exact Hroom|]. split; [exact H|].
  exact (proj1 (C7_frame_decoding arp_packet lcore0 [] Hroom) H).
Defined.

(** A 14-byte frame is decided on what the recycled buffer holds after it:
    here the remains of a UDP frame, so it is counted with its 14 bytes. *)
Example short_frame_reads_buffer_memory :
  Dpdk.pkt_len (Dpdk.rx_mbuf stale_packet) = 14 /\
  Dpdk.stats (Dpdk.process_packet stale_packet lcore0) = Dpdk.mkRx 1 14 0 10.
Proof. split; vm_compute; reflexivity. Qed.

(** An ICMP packet in the middle of a burst: the two UDP frames around it
    are counted, it is not, and all three buffers are released in order. *)
Example icmp_in_burst :
  Dpdk.process_burst [short_udp_packet; icmp_packet; stamped_packet x01] lcore0
  = Dpdk.mkLcore (Dpdk.mkRx 2 132 0 20) [0; 8; 0]%nat.
Proof. vm_compute. reflexivity. Qed.

(** ** The error counter of udp_multicast_receiver.c *)

Lemma process_packet_errors p ls :
  Dpdk.errors (Dpdk.stats (Dpdk.process_packet p ls))
  = Dpdk.errors (Dpdk.stats ls).
Proof.
  unfold Dpdk.process_packet. cbn [Dpdk.stats].
  destruct (Dpdk.udp_payload (Dpdk.rx_mbuf p)) as [[payload len]|];
    reflexivity.
Qed.

Lemma process_burst_errors bufs ls :
  Dpdk.errors (Dpdk.stats (Dpdk.process_burst bufs ls))
  = Dpdk.errors (Dpdk.stats ls).
Proof.
  unfold Dpdk.process_burst. revert ls.
  induction bufs as [|p bufs IH]; intros ls; simpl; [reflexivity|].
  rewrite IH. apply process_packet_errors.
Qed.

Lemma lcore_main_errors script ls :
  Dpdk.errors (Dpdk.stats (Dpdk.lcore_state_of (Dpdk.lcore_main script ls)))
  = Dpdk.errors (Dpdk.stats ls).
Proof.
  revert ls. induction script as [|q script IH]; intros ls; simpl;
    [reflexivity|].
  destruct (Dpdk.poll_force_quit q); [reflexivity|].
  destruct (_ =? 0); rewrite IH; [reflexivity|apply process_burst_errors].
Qed.

(** C10. In the burst receiver nothing writes the [errors] counter: it is 0
    initially, after every processed packet and burst, in every state the
    polling loop reaches, and in the report that [main] prints. *)
Theorem C10_errors_stay_zero env script bufs status rep :
  Dpdk.main env script = Dpdk.Exit status (Some rep) ->
  Dpdk.errors Dpdk.stats0 = 0 /\
  Dpdk.errors
    (Dpdk.stats (Dpdk.lcore_state_of (Dpdk.lcore_main script lcore0))) = 0 /\
  Dpdk.errors
    (Dpdk.stats
       (Dpdk.process_burst bufs
          (Dpdk.lcore_state_of (Dpdk.lcore_main script lcore0)))) = 0 /\
  Dpdk.rep_errors rep = 0.
Proof.
  intros Hmain.
  assert (Hloop : Dpdk.errors
            (Dpdk.stats (Dpdk.lcore_state_of (Dpdk.lcore_main script lcore0)))
            = 0) by (rewrite lcore_main_errors; reflexivity).
  repeat apply conj; try reflexivity; try exact Hloop.
  - rewrite process_burst_errors. exact Hloop.
  - unfold Dpdk.main in Hmain.
    destruct (_ <? 0); [discriminate|].
    destruct (_ =? 0); [discriminate|].
    destruct (Dpdk.mbuf_pool_is_null env); [discriminate|].
    destruct (negb _); [discriminate|].
    fold lcore0 in Hmain.
    destruct (Dpdk.lcore_main script lcore0) as [ls|ls] eqn:E;
      [|discriminate].
    inversion Hmain; subst. cbn [Dpdk.print_stats Dpdk.rep_errors].
    simpl in Hloop. exact Hloop.
Qed.

Lemma C10_errors_stay_zero_witness :
  Dpdk.main dpdk_ok one_burst
    = Dpdk.Exit 0
        (Some (Dpdk.mkReport 1 58 0
                 (Dpdk.AvgQuotient 10000000000 2000000000))) /\
  Dpdk.rep_errors
    (Dpdk.mkReport 1 58 0 (Dpdk.AvgQuotient 10000000000 2000000000)) = 0.
Proof.
  assert (H : Dpdk.main dpdk_ok one_burst
    = Dpdk.Exit 0
        (Some (Dpdk.mkReport 1 58 0
                 (Dpdk.AvgQuotient 10000000000 2000000000))))
    by (vm_compute; reflexivity).
  split; [exact H|].
  exact (proj2 (proj2 (proj2 (C10_errors_stay_zero dpdk_ok one_burst [] _ _ H)))).
Defined.


(** ** Interrupted and failed waits *)

Lemma receive_loop_eintr rest ls :
  Kernel.receive_loop
    (Kernel.mkIteration true (Kernel.RecvError Kernel.EINTR) :: rest) ls
  = Kernel.receive_loop rest ls.
Proof. reflexivity. Qed.

Lemma loop_body_fatal errno ls :
  errno <> Kernel.EINTR ->
  Kernel.loop_body (Kernel.RecvError errno) ls = Kernel.Break errno ls.
Proof.
  intros H. unfold Kernel.loop_body.
  destruct (Z.eqb_spec errno Kernel.EINTR); [contradiction|reflexivity].
Qed.

(** C8. In the socket receiver a wait that fails with EINTR goes back to the
    loop test with statistics, report time and output untouched, and the
    run continues with what follows; a wait that fails with any other errno
    leaves the loop at once, whatever the flag or the socket would have
    given next, and [main] goes on to the final report. *)
Theorem C8_interrupted_wait errno ls rest start :
  errno <> Kernel.EINTR ->
  Kernel.loop_body (Kernel.RecvError Kernel.EINTR) ls = Kernel.Next ls /\
  Kernel.receive_loop
    (Kernel.mkIteration true (Kernel.RecvError Kernel.EINTR) :: rest) ls
    = Kernel.receive_loop rest ls /\
  Kernel.loop_body (Kernel.RecvError errno) ls = Kernel.Break errno ls /\
  Kernel.receive_loop
    (Kernel.mkIteration true (Kernel.RecvError errno) :: rest) ls
    = (Kernel.Fatal errno, ls) /\
  Kernel.main setup_ok start
    (Kernel.mkIteration true (Kernel.RecvError errno) :: rest)
    = Kernel.Exit 0 [Kernel.final_report Kernel.stats0].
Proof.
  intros Hne.
  assert (Hloop : forall l,
            Kernel.receive_loop
              (Kernel.mkIteration true (Kernel.RecvError errno) :: rest) l
            = (Kernel.Fatal errno, l)).
  { intros l. cbn [Kernel.receive_loop Kernel.it_running Kernel.it_recv].
    rewrite loop_body_fatal by exact Hne. reflexivity. }
  repeat apply conj; try reflexivity.
  - apply loop_body_fatal. exact Hne.
  - apply Hloop.
  - unfold Kernel.main. cbn [setup_ok Kernel.socket_ret
      Kernel.setsockopt_reuseaddr_ret Kernel.bind_ret
      Kernel.setsockopt_membership_ret Z.ltb Z.compare].
    rewrite Hloop. reflexivity.
Qed.

Lemma C8_interrupted_wait_witness :
  5 <> Kernel.EINTR /\
  Kernel.receive_loop
    (Kernel.mkIteration true (Kernel.RecvError 5) :: two_datagrams)
    (loop0 (seconds 0))
  = (Kernel.Fatal 5, loop0 (seconds 0)).
Proof.
  assert (H : 5 <> Kernel.EINTR) by (unfold Kernel.EINTR; lia).
  split; [exact H|].
  exact (proj1 (proj2 (proj2 (proj2
    (C8_interrupted_wait 5 (loop0 (seconds 0)) two_datagrams (seconds 0) H))))).
Defined.

(** ** Exit status *)

Lemma kernel_setup_failure env start script :
  Kernel.socket_ret env < 0 \/ Kernel.setsockopt_reuseaddr_ret env < 0 \/
  Kernel.bind_ret env < 0 \/ Kernel.setsockopt_membership_ret env < 0 ->
  Kernel.main env start script = Kernel.Exit 1 [].
Proof.
  intros H. unfold Kernel.main.
  destruct (Z.ltb_spec (Kernel.socket_ret env) 0); [reflexivity|].
  destruct (Z.ltb_spec (Kernel.setsockopt_reuseaddr_ret env) 0); [reflexivity|].
  destruct (Z.ltb_spec (Kernel.bind_ret env) 0); [reflexivity|].
  destruct (Z.ltb_spec (Kernel.setsockopt_membership_ret env) 0); [reflexivity|].
  lia.
Qed.

(** Once the socket is set up, every way out of the loop returns 0. *)
Lemma kernel_exit_after_setup env start script status printed :
  0 <= Kernel.socket_ret env -> 0 <= Kernel.setsockopt_reuseaddr_ret env ->
  0 <= Kernel.bind_ret env -> 0 <= Kernel.setsockopt_membership_ret env ->
  Kernel.main env start script = Kernel.Exit status printed ->
  status = 0.
Proof.
  intros H1 H2 H3 H4. unfold Kernel.main.
  destruct (Z.ltb_spec (Kernel.socket_ret env) 0); [lia|].
  destruct (Z.ltb_spec (Kernel.setsockopt_reuseaddr_ret env) 0); [lia|].
  destruct (Z.ltb_spec (Kernel.bind_ret env) 0); [lia|].
  destruct (Z.ltb_spec (Kernel.setsockopt_membership_ret env) 0); [lia|].
  destruct (Kernel.receive_loop script _) as [[| e | |] ls];
    intros Hexit; inversion Hexit; reflexivity.
Qed.

Lemma dpdk_exit_status env script status printed :
  Dpdk.main env script = Dpdk.Exit status printed ->
  (status = 0 /\ printed <> None /\
   0 <= Dpdk.rte_eal_init_ret env /\ Dpdk.dev_count_avail env <> 0 /\
   Dpdk.mbuf_pool_is_null env = false /\ Dpdk.port_init (Dpdk.port_env env) = 0)
  \/
  (status = Dpdk.EXIT_FAILURE /\ printed = None /\
   (Dpdk.rte_eal_init_ret env < 0 \/ Dpdk.dev_count_avail env = 0 \/
    Dpdk.mbuf_pool_is_null env = true \/
    Dpdk.port_init (Dpdk.port_env env) <> 0)).
Proof.
  unfold Dpdk.main.
  destruct (Z.ltb_spec (Dpdk.rte_eal_init_ret env) 0) as [H1|H1];
    [intros H; inversion H; right; auto|].
  destruct (Z.eqb_spec (Dpdk.dev_count_avail env) 0) as [H2|H2];
    [intros H; inversion H; right; auto|].
  destruct (Dpdk.mbuf_pool_is_null env) eqn:H3;
    [intros H; inversion H; right; auto 6|].
  destruct (Z.eqb_spec (Dpdk.port_init (Dpdk.port_env env)) 0) as [H4|H4];
    cbn [negb]; [|intros H; inversion H; right; auto 6].
  destruct (Dpdk.lcore_main script _); [|discriminate].
  intros H; inversion H. left. repeat split; auto. discriminate.
Qed.

(** C5. The socket receiver returns 1 when a set-up call fails and 0 after
    a stop request, and it also returns 0 when recvfrom fails with an errno
    other than EINTR: with the socket set up, the first recvfrom failing
    with EIO ends the run with status 0 after the final statistics. *)
Theorem C5_exit_status_after_fatal_error :
  Kernel.receive_loop recv_fails (loop0 (seconds 0))
    = (Kernel.Fatal 5, loop0 (seconds 0)) /\
  Kernel.main setup_ok (seconds 0) recv_fails
    = Kernel.Exit 0 [Kernel.Final 0 0 None] /\
  Kernel.main (Kernel.mkSetup 3 0 (-1) 0) (seconds 0) recv_fails
    = Kernel.Exit 1 [] /\
  Kernel.main setup_ok (seconds 0) [stop_request]
    = Kernel.Exit 0 [Kernel.Final 0 0 None].
Proof. repeat apply conj; vm_compute; reflexivity. Qed.

(** ** Division in the reports *)

Lemma periodic_report_zero s :
  Kernel.packets_received s = 0 -> Kernel.periodic_report s = None.
Proof.
  intros H. unfold Kernel.periodic_report, udiv64. rewrite H. reflexivity.
Qed.

Lemma periodic_report_nonzero s :
  Kernel.packets_received s <> 0 ->
  Kernel.periodic_report s =
    Some (Kernel.Periodic (Kernel.packets_received s)
            (Kernel.total_latency_ns s / Kernel.packets_received s)
            (Kernel.min_latency_ns s) (Kernel.max_latency_ns s)).
Proof.
  intros H. unfold Kernel.periodic_report, udiv64.
  destruct (Z.eqb_spec (Kernel.packets_received s) 0); [contradiction|].
  reflexivity.
Qed.

(** The final block tests the count before it divides. *)
Lemma final_report_guarded s :
  Kernel.final_report s =
    Kernel.Final (Kernel.packets_received s) (Kernel.bytes_received s)
      (if Kernel.packets_received s >? 0
       then Some (Kernel.total_latency_ns s / Kernel.packets_received s,
                  Kernel.min_latency_ns s, Kernel.max_latency_ns s)
       else None).
Proof.
  unfold Kernel.final_report, udiv64.
  destruct (Z.gtb_spec (Kernel.packets_received s) 0) as [H|H];
    [|reflexivity].
  destruct (Z.eqb_spec (Kernel.packets_received s) 0); [lia|reflexivity].
Qed.

(** C2. The periodic report of the socket receiver divides the latency sum
    by the packet count without testing the count: a 16-byte datagram that
    arrives 5 s after start, before any valid message, is discarded, the
    interval has elapsed, and the division by the count 0 traps.  The final
    report of the same file prints no average for a count of 0, and
    [print_stats] of the burst receiver prints 0. *)
Theorem C2_periodic_report_divides_by_zero hz :
  Kernel.loop_body (Kernel.Received (zeros 16) (seconds 5)) (loop0 (seconds 0))
    = Kernel.DivideByZero (loop0 (seconds 0)) /\
  Kernel.main setup_ok (seconds 0) short_first = Kernel.Crash [] /\
  Kernel.periodic_report Kernel.stats0 = None /\
  Kernel.final_report Kernel.stats0 = Kernel.Final 0 0 None /\
  Dpdk.print_stats hz Dpdk.stats0 = Dpdk.mkReport 0 0 0 Dpdk.AvgZero.
Proof. repeat apply conj; vm_compute; reflexivity. Qed.

(** ** Monotonicity of the statistics *)

(** Against C9 for the latency sum: with the receiver clock behind the
    sender, the first latency wraps to
    2^64 - 15; the next sample makes the 64-bit latency sum wrap, and the sum
    drops from 2^64 - 15 to 5. *)
Lemma C9_latency_sum_decreases :
  Kernel.total_latency_ns skewed_first = 2 ^ 64 - 15 /\
  Kernel.total_latency_ns skewed_second = 5 /\
  Kernel.total_latency_ns skewed_second < Kernel.total_latency_ns skewed_first.
Proof. repeat apply conj; vm_compute; reflexivity. Qed.

(** The loop body changes the statistics through [process_order_book] only. *)
Lemma loop_body_stats r ls :
  Kernel.st (Kernel.body_state (Kernel.loop_body r ls)) = Kernel.st ls \/
  exists data now,
    r = Kernel.Received data now /\
    Kernel.st (Kernel.body_state (Kernel.loop_body r ls))
    = Kernel.process_order_book data (Z.of_nat (length data))
        (Kernel.get_timestamp_ns now) (Kernel.st ls).
Proof.
  destruct r as [data now|errno].
  - right. exists data, now. split; [reflexivity|].
    unfold Kernel.loop_body.
    destruct (_ >=? _); [|reflexivity].
    destruct (Kernel.periodic_report _); reflexivity.
  - left. unfold Kernel.loop_body. destruct (_ =? _); reflexivity.
Qed.

(** C9, as the code has it. Across a processing step max never decreases and, once the
    count is at least 1, min never increases; packet count, byte total and
    latency sum are 64-bit sums, each non-decreasing across a step whose
    addition stays below 2^64; the loop body changes the statistics through
    this step only. *)
Theorem C9_monotone data len recv_time s r ls :
  let s' := Kernel.process_order_book data len recv_time s in
  Kernel.max_latency_ns s <= Kernel.max_latency_ns s' /\
  (0 < Kernel.packets_received s < 2 ^ 64 ->
     Kernel.min_latency_ns s' <= Kernel.min_latency_ns s) /\
  (0 <= Kernel.packets_received s < 2 ^ 64 - 1 ->
     Kernel.packets_received s <= Kernel.packets_received s') /\
  (0 <= len -> 0 <= Kernel.bytes_received s ->
   Kernel.bytes_received s + len < 2 ^ 64 ->
     Kernel.bytes_received s <= Kernel.bytes_received s') /\
  (0 <= Kernel.total_latency_ns s ->
   Kernel.total_latency_ns s + Kernel.latency_ns data recv_time < 2 ^ 64 ->
     Kernel.total_latency_ns s <= Kernel.total_latency_ns s') /\
  (Kernel.st (Kernel.body_state (Kernel.loop_body r ls)) = Kernel.st ls \/
   exists buffer now,
     r = Kernel.Received buffer now /\
     Kernel.st (Kernel.body_state (Kernel.loop_body r ls))
     = Kernel.process_order_book buffer (Z.of_nat (length buffer))
         (Kernel.get_timestamp_ns now) (Kernel.st ls)).
Proof.
  intros s'. subst s'.
  pose proof (latency_ns_range data recv_time) as Hlat.
  destruct (Z.lt_ge_cases len 32) as [Hshort|Hvalid].
  - rewrite process_order_book_short by exact Hshort.
    repeat apply conj; try lia. apply loop_body_stats.
  - rewrite process_order_book_valid by exact Hvalid. cbv zeta.
    cbn [Kernel.packets_received Kernel.bytes_received Kernel.total_latency_ns
         Kernel.min_latency_ns Kernel.max_latency_ns].
    set (latency := Kernel.latency_ns data recv_time) in *.
    repeat apply conj.
    + destruct (Z.gtb_spec latency (Kernel.max_latency_ns s)); lia.
    + intros Hp.
      destruct ((wrap64 (Kernel.packets_received s + 1) =? 1)
                || (latency <? Kernel.min_latency_ns s)) eqn:E; [|lia].
      apply orb_true_iff in E. destruct E as [E|E].
      * apply Z.eqb_eq in E. unfold wrap64 in E.
        destruct (Z.eq_dec (Kernel.packets_received s + 1) (2 ^ 64)) as [E'|E'].
        -- rewrite E', Z.mod_same in E by lia. lia.
        -- rewrite Z.mod_small in E by lia. lia.
      * apply Z.ltb_lt in E. lia.
    + intros Hp. rewrite wrap64_small by lia. lia.
    + intros H0 H1 H2. rewrite wrap64_small by lia. lia.
    + intros H1 H2. rewrite wrap64_small by lia. lia.
    + apply loop_body_stats.
Qed.

Lemma C9_monotone_witness :
  0 < 1 < 2 ^ 64 /\ 0 <= 1 < 2 ^ 64 - 1 /\ 0 <= 40 /\ 0 <= 40 /\
  40 + 40 < 2 ^ 64 /\ 0 <= 50 /\
  50 + Kernel.latency_ns (zeros 40) 10 < 2 ^ 64 /\
  Kernel.min_latency_ns
    (Kernel.process_order_book (zeros 40) 40 10 (Kernel.mkStats 1 40 50 50 50))
    <= 50 /\
  1 <= Kernel.packets_received
    (Kernel.process_order_book (zeros 40) 40 10 (Kernel.mkStats 1 40 50 50 50)) /\
  40 <= Kernel.bytes_received
    (Kernel.process_order_book (zeros 40) 40 10 (Kernel.mkStats 1 40 50 50 50)) /\
  50 <= Kernel.total_latency_ns
    (Kernel.process_order_book (zeros 40) 40 10 (Kernel.mkStats 1 40 50 50 50)).
Proof.
  assert (H1 : 0 < 1 < 2 ^ 64) by lia.
  assert (H2 : 0 <= 1 < 2 ^ 64 - 1) by lia.
  assert (H3 : 0 <= 40) by lia.
  assert (H4 : 40 + 40 < 2 ^ 64) by lia.
  assert (H5 : 0 <= 50) by lia.
  assert (H6 : 50 + Kernel.latency_ns (zeros 40) 10 < 2 ^ 64)
    by (vm_compute; reflexivity).
  destruct (C9_monotone (zeros 40) 40 10 (Kernel.mkStats 1 40 50 50 50)
              (Kernel.RecvError 0) (loop0 (seconds 0)))
    as (_ & Hmin & Hcount & Hbytes & Hsum & _).
  split; [exact H1|]. split; [exact H2|]. split; [exact H3|].
  split; [exact H3|]. split; [exact H4|]. split; [exact H5|].
  split; [exact H6|].
  split; [exact (Hmin H1)|]. split; [exact (Hcount H2)|].
  split; [exact (Hbytes H3 H3 H4)|exact (Hsum H5 H6)].
Defined.

(** ** Periodic and final reports of kernel_receiver.c *)

Lemma accumulate_app a b s :
  Kernel.accumulate (a ++ b) s = Kernel.accumulate b (Kernel.accumulate a s).
Proof. unfold Kernel.accumulate. apply fold_left_app. Qed.

Lemma last_nonempty_default {A} (x : A) l d d' :
  last (x :: l) d = last (x :: l) d'.
Proof.
  revert x. induction l as [|y l IH]; intros x; [reflexivity|].
  change (last (y :: l) d = last (y :: l) d'). apply IH.
Qed.

Lemma last_cons_shift {A} (x : A) l d : last (x :: l) d = last l x.
Proof.
  destruct l as [|y l]; [reflexivity|].
  change (last (y :: l) d = last (y :: l) x). apply last_nonempty_default.
Qed.

Lemma receive_loop_app pre rest ls ls' :
  Kernel.receive_loop pre ls = (Kernel.StillRunning, ls') ->
  Kernel.receive_loop (pre ++ rest) ls = Kernel.receive_loop rest ls'.
Proof.
  revert ls. induction pre as [|it pre IH]; intros ls H.
  - simpl in H. inversion H. reflexivity.
  - simpl in H |- *. destruct (Kernel.it_running it); [|discriminate].
    destruct (Kernel.loop_body (Kernel.it_recv it) ls) as [l|e l|l];
      [|discriminate|discriminate].
    apply IH. exact H.
Qed.

(** A report taken after [k] iterations of the tail is one taken after
    [k + 1] iterations of the whole script. *)
Lemma emitted_cons it pre s0 t line :
  Kernel.emitted pre (Kernel.accumulate (Kernel.received_of it) s0) t line ->
  Kernel.emitted (it :: pre) s0 t line.
Proof.
  intros (k & data & now & Hnth & Ht & Hrep).
  exists (S k), data, now. repeat apply conj; try assumption.
  change (firstn (S (S k)) (it :: pre)) with (it :: firstn (S k) pre).
  cbn [flat_map]. rewrite accumulate_app. exact Hrep.
Qed.

Lemma Forall2_emitted_cons it pre s0 ts lines :
  Forall2 (Kernel.emitted pre (Kernel.accumulate (Kernel.received_of it) s0))
    ts lines ->
  Forall2 (Kernel.emitted (it :: pre) s0) ts lines.
Proof.
  intros H. induction H as [|t line ts lines Hhd Htl IH]; constructor.
  - apply emitted_cons. exact Hhd.
  - exact IH.
Qed.

(** While the loop is running: the statistics are those of everything
    received so far, and the lines printed are periodic reports of the
    running totals, at times spaced by at least the interval. *)
Lemma running_reports pre : forall ls ls',
  Kernel.receive_loop pre ls = (Kernel.StillRunning, ls') ->
  Kernel.st ls' =
    Kernel.accumulate (flat_map Kernel.received_of pre) (Kernel.st ls) /\
  exists times lines,
    Kernel.out ls' = Kernel.out ls ++ lines /\
    Kernel.spaced (Kernel.last_report_time ls) times /\
    Kernel.last_report_time ls' = last times (Kernel.last_report_time ls) /\
    Forall2 (Kernel.emitted pre (Kernel.st ls)) times lines.
Proof.
  induction pre as [|it pre IH]; intros ls ls' H.
  - simpl in H. inversion H; subst. split; [reflexivity|].
    exists [], []. rewrite app_nil_r. repeat apply conj; try reflexivity.
    constructor.
  - destruct it as [flag r]. cbn [Kernel.receive_loop Kernel.it_running
      Kernel.it_recv] in H.
    destruct flag; [|discriminate].
    destruct r as [data now|errno].
    + (* a datagram *)
      unfold Kernel.loop_body in H.
      set (t := Kernel.get_timestamp_ns now) in *.
      set (s := Kernel.process_order_book data (Z.of_nat (length data)) t
                  (Kernel.st ls)) in *.
      assert (Hs : s = Kernel.accumulate
                         (Kernel.received_of
                            (Kernel.mkIteration true (Kernel.Received data now)))
                         (Kernel.st ls)) by reflexivity.
      destruct (Z.geb_spec (wrap64 (t - Kernel.last_report_time ls))
                  Kernel.report_interval_ns) as [Hgate|Hgate].
      * destruct (Kernel.periodic_report s) as [line|] eqn:Hline;
          [|discriminate].
        destruct (IH _ _ H) as (Hst & times & lines & Hout & Hsp & Hlast & Hem).
        cbn [Kernel.st Kernel.out Kernel.last_report_time] in *.
        split.
        { cbn [flat_map]. rewrite accumulate_app, <- Hs. exact Hst. }
        exists (t :: times), (line :: lines). repeat apply conj.
        -- rewrite Hout, <- app_assoc. reflexivity.
        -- lia.
        -- exact Hsp.
        -- rewrite last_cons_shift. exact Hlast.
        -- constructor.
           ++ exists 0%nat, data, now. repeat apply conj; try reflexivity.
              cbn [firstn flat_map]. rewrite app_nil_r, <- Hs. exact Hline.
           ++ apply Forall2_emitted_cons. rewrite <- Hs. exact Hem.
      * destruct (IH _ _ H) as (Hst & times & lines & Hout & Hsp & Hlast & Hem).
        cbn [Kernel.st Kernel.out Kernel.last_report_time] in *.
        split.
        { cbn [flat_map]. rewrite accumulate_app, <- Hs. exact Hst. }
        exists times, lines. repeat apply conj; try assumption.
        apply Forall2_emitted_cons. rewrite <- Hs. exact Hem.
    + (* a failed wait *)
      unfold Kernel.loop_body in H.
      destruct (errno =? Kernel.EINTR); [|discriminate].
      destruct (IH _ _ H) as (Hst & times & lines & Hout & Hsp & Hlast & Hem).
      split; [exact Hst|].
      exists times, lines. repeat apply conj; try assumption.
      apply Forall2_emitted_cons. exact Hem.
Qed.

Lemma emitted_not_final its s0 times lines :
  Forall2 (Kernel.emitted its s0) times lines ->
  filter Kernel.is_final lines = [].
Proof.
  intros H. induction H as [|t line times lines Hhd Htl IH]; [reflexivity|].
  destruct Hhd as (k & data & now & _ & _ & Hrep).
  unfold Kernel.periodic_report in Hrep.
  destruct (udiv64 _ _); [|discriminate].
  inversion Hrep; subst. simpl. exact IH.
Qed.

Lemma report_interval_is_5s : Kernel.report_interval_ns = 5 * 10 ^ 9.
Proof. reflexivity. Qed.

Lemma periodic_report_inv s line :
  Kernel.periodic_report s = Some line ->
  Kernel.packets_received s <> 0 /\
  line = Kernel.Periodic (Kernel.packets_received s)
           (Kernel.total_latency_ns s / Kernel.packets_received s)
           (Kernel.min_latency_ns s) (Kernel.max_latency_ns s).
Proof.
  intros H. destruct (Z.eq_dec (Kernel.packets_received s) 0) as [E|E].
  - rewrite periodic_report_zero in H by exact E. discriminate.
  - rewrite periodic_report_nonzero in H by exact E.
    inversion H. split; [exact E|reflexivity].
Qed.

Lemma emitted_time_range its s0 times lines :
  Forall2 (Kernel.emitted its s0) times lines ->
  Forall (fun t => 0 <= t < 2 ^ 64) times.
Proof.
  intros H. induction H as [|t line times lines Hhd Htl IH]; constructor.
  - destruct Hhd as (k & data & now & _ & <- & _). apply wrap64_range.
  - exact IH.
Qed.

(** The unsigned gate of the loop, read on the clock values. *)
Lemma spaced_gated times : forall previous,
  0 <= previous < 2 ^ 64 ->
  Forall (fun t => 0 <= t < 2 ^ 64) times ->
  Kernel.spaced previous times -> gated previous times.
Proof.
  induction times as [|t times IH]; intros previous Hp Hall Hsp; [exact I|].
  inversion Hall as [|? ? Ht Hrest]; subst.
  cbn [Kernel.spaced] in Hsp. destruct Hsp as [Hgate Hsp].
  cbn [gated]. split; [|apply IH; assumption].
  rewrite report_interval_is_5s in Hgate. unfold wrap64 in Hgate.
  destruct (Z.le_gt_cases previous t) as [Hle|Hgt].
  - left. rewrite Z.mod_small in Hgate by lia. lia.
  - right.
    replace (t - previous) with (t - previous + 2 ^ 64 + (-1) * 2 ^ 64)
      in Hgate by lia.
    rewrite Z.mod_add, Z.mod_small in Hgate by lia. lia.
Qed.

(** Against C6 as stated: with the clock at 10 s when the receiver starts
    and at 9 s when the first datagram has been received, the unsigned
    difference wraps above the interval and a periodic report is printed,
    although no time has elapsed since the start. *)
Lemma C6_report_after_clock_set_back :
  Kernel.get_timestamp_ns (seconds 9) < Kernel.get_timestamp_ns (seconds 10) /\
  Kernel.receive_loop clock_set_back (loop0 (seconds 10))
  = (Kernel.StillRunning,
     Kernel.mkLoop (Kernel.mkStats 1 40 9000000000 9000000000 9000000000)
       9000000000
       [Kernel.Periodic 1 9000000000 9000000000 9000000000]).
Proof. split; vm_compute; reflexivity. Qed.

(** C6, as the code has it.  While the socket receiver runs, a periodic
    line is printed only right after a datagram whose receive time is at
    least 5 s later than the previous emission (the start, for the first
    line) or earlier than it, the clock having been set back; each line
    shows the count, the average (sum over count), the min and the max of
    everything received since start, and the accumulator keeps those
    totals.  When the loop test then reads the stop request, [main] prints
    exactly one more report, the final one, with the count and the bytes
    since start (and average, min and max when the count is positive),
    whatever time has passed since the last line. *)
Theorem C6_reports_by_clock_difference start pre ls stop post :
  Kernel.receive_loop pre (loop0 start) = (Kernel.StillRunning, ls) ->
  Kernel.it_running stop = false ->
  let totals := Kernel.cumulative pre in
  let final :=
    Kernel.Final (Kernel.packets_received totals) (Kernel.bytes_received totals)
      (if Kernel.packets_received totals >? 0
       then Some (Kernel.total_latency_ns totals / Kernel.packets_received totals,
                  Kernel.min_latency_ns totals, Kernel.max_latency_ns totals)
       else None) in
  Kernel.st ls = totals /\
  (exists times,
     gated (Kernel.get_timestamp_ns start) times /\
     Kernel.last_report_time ls = last times (Kernel.get_timestamp_ns start) /\
     Forall2
       (fun t line =>
          exists k data now,
            nth_error pre k
              = Some (Kernel.mkIteration true (Kernel.Received data now)) /\
            Kernel.get_timestamp_ns now = t /\
            Kernel.packets_received (Kernel.cumulative (firstn (S k) pre)) <> 0 /\
            line =
              Kernel.Periodic
                (Kernel.packets_received (Kernel.cumulative (firstn (S k) pre)))
                (Kernel.total_latency_ns (Kernel.cumulative (firstn (S k) pre))
                 / Kernel.packets_received (Kernel.cumulative (firstn (S k) pre)))
                (Kernel.min_latency_ns (Kernel.cumulative (firstn (S k) pre)))
                (Kernel.max_latency_ns (Kernel.cumulative (firstn (S k) pre))))
       times (Kernel.out ls)) /\
  Kernel.main setup_ok start (pre ++ stop :: post)
    = Kernel.Exit 0 (Kernel.out ls ++ [final]) /\
  filter Kernel.is_final (Kernel.out ls ++ [final]) = [final].
Proof.
  intros Hrun Hstop. cbv zeta.
  destruct (running_reports pre _ _ Hrun)
    as (Hst & times & lines & Hout & Hsp & Hlast & Hem).
  cbn [loop0 Kernel.st Kernel.out Kernel.last_report_time app] in *.
  fold (Kernel.cumulative pre) in Hst.
  rewrite <- final_report_guarded.
  repeat apply conj.
  - exact Hst.
  - exists times. rewrite Hout. repeat apply conj.
    + apply spaced_gated;
        [apply wrap64_range|exact (emitted_time_range _ _ _ _ Hem)|exact Hsp].
    + exact Hlast.
    + revert Hem. apply Forall2_impl.
      intros t line (k & data & now & Hnth & Ht & Hrep).
      apply periodic_report_inv in Hrep. destruct Hrep as [Hnz Hline].
      exists k, data, now. repeat apply conj; assumption.
  - unfold Kernel.main. cbn [setup_ok Kernel.socket_ret
      Kernel.setsockopt_reuseaddr_ret Kernel.bind_ret
      Kernel.setsockopt_membership_ret Z.ltb Z.compare].
    fold (loop0 start). rewrite (receive_loop_app pre _ _ _ Hrun).
    cbn [Kernel.receive_loop]. rewrite Hstop, Hst. reflexivity.
  - rewrite Hout, filter_app, (emitted_not_final _ _ _ _ Hem). 
    rewrite final_report_guarded. reflexivity.
Qed.

Lemma C6_reports_by_clock_difference_witness :
  Kernel.receive_loop two_datagrams (loop0 (seconds 0))
    = (Kernel.StillRunning,
       Kernel.mkLoop (Kernel.mkStats 2 80 13000000000 6000000000 7000000000)
         6000000000
         [Kernel.Periodic 1 6000000000 6000000000 6000000000]) /\
  Kernel.it_running stop_request = false /\
  Kernel.main setup_ok (seconds 0) (two_datagrams ++ [stop_request])
    = Kernel.Exit 0
        [Kernel.Periodic 1 6000000000 6000000000 6000000000;
         Kernel.Final 2 80 (Some (6500000000, 6000000000, 7000000000))].
Proof.
  assert (H1 : Kernel.receive_loop two_datagrams (loop0 (seconds 0))
    = (Kernel.StillRunning,
       Kernel.mkLoop (Kernel.mkStats 2 80 13000000000 6000000000 7000000000)
         6000000000
         [Kernel.Periodic 1 6000000000 6000000000 6000000000]))
    by (vm_compute; reflexivity).
  assert (H2 : Kernel.it_running stop_request = false) by reflexivity.
  split; [exact H1|]. split; [exact H2|].
  exact (proj1 (proj2 (proj2
    (C6_reports_by_clock_difference (seconds 0) two_datagrams _ stop_request
       [] H1 H2)))).
Defined.

(** ** The clock of kernel_receiver.c *)

(** For a normalised [timespec] that fits 64 bits, [get_timestamp_ns] is
    seconds times 10^9 plus nanoseconds, and a later clock reading gives a
    larger timestamp. *)
Theorem get_timestamp_ns_exact_monotone a b :
  0 <= tv_sec a -> 0 <= tv_nsec a < 10 ^ 9 ->
  0 <= tv_nsec b < 10 ^ 9 ->
  tv_sec b * 10 ^ 9 + tv_nsec b < 2 ^ 64 ->
  tv_sec a < tv_sec b \/ (tv_sec a = tv_sec b /\ tv_nsec a < tv_nsec b) ->
  Kernel.get_timestamp_ns a = tv_sec a * 10 ^ 9 + tv_nsec a /\
  Kernel.get_timestamp_ns b = tv_sec b * 10 ^ 9 + tv_nsec b /\
  Kernel.get_timestamp_ns a < Kernel.get_timestamp_ns b.
Proof.
  intros Ha1 Ha2 Hb2 Hb3 Hlt.
  assert (Hexact : forall t, 0 <= tv_sec t -> 0 <= tv_nsec t < 10 ^ 9 ->
            tv_sec t * 10 ^ 9 + tv_nsec t < 2 ^ 64 ->
            Kernel.get_timestamp_ns t = tv_sec t * 10 ^ 9 + tv_nsec t).
  { intros t H1 H2 H3. unfold Kernel.get_timestamp_ns, Kernel.NSEC_PER_SEC.
    change 1000000000 with (10 ^ 9).
    rewrite (wrap64_small (tv_sec t)) by nia.
    rewrite (wrap64_small (tv_nsec t)) by lia.
    rewrite (wrap64_small (tv_sec t * 10 ^ 9)) by nia.
    apply wrap64_small. lia. }
  assert (Hb1 : 0 <= tv_sec b) by lia.
  rewrite (Hexact a), (Hexact b) by (try assumption; nia).
  repeat apply conj; try reflexivity. nia.
Qed.

Lemma get_timestamp_ns_exact_monotone_witness :
  Kernel.get_timestamp_ns (mkTimespec 6 999999999)
  < Kernel.get_timestamp_ns (mkTimespec 7 0).
Proof.
  apply (get_timestamp_ns_exact_monotone (mkTimespec 6 999999999)
           (mkTimespec 7 0)); simpl; lia.
Defined.

(** ** Statistics of a sequence of datagrams *)

Lemma stats0_in_range : stats_in_range Kernel.stats0.
Proof. unfold stats_in_range. simpl. lia. Qed.

Lemma process_order_book_in_range data len recv_time s :
  stats_in_range s ->
  stats_in_range (Kernel.process_order_book data len recv_time s).
Proof.
  intros Hs. destruct (Z.lt_ge_cases len 32) as [Hshort|Hvalid].
  - rewrite process_order_book_short by exact Hshort. exact Hs.
  - rewrite process_order_book_valid by exact Hvalid. cbv zeta.
    destruct Hs as (Hp & Hb & Ht & Hmin & Hmax & Hle).
    pose proof (latency_ns_range data recv_time) as Hlat.
    set (latency := Kernel.latency_ns data recv_time) in *.
    unfold stats_in_range.
    cbn [Kernel.packets_received Kernel.bytes_received Kernel.total_latency_ns
         Kernel.min_latency_ns Kernel.max_latency_ns].
    pose proof (wrap64_range (Kernel.packets_received s + 1)).
    pose proof (wrap64_range (Kernel.bytes_received s + len)).
    pose proof (wrap64_range (Kernel.total_latency_ns s + latency)).
    destruct ((wrap64 (Kernel.packets_received s + 1) =? 1)
              || (latency <? Kernel.min_latency_ns s)) eqn:E.
    + destruct (Z.gtb_spec latency (Kernel.max_latency_ns s));
        repeat apply conj; lia.
    + apply orb_false_iff in E. destruct E as [_ E]. apply Z.ltb_ge in E.
      destruct (Z.gtb_spec latency (Kernel.max_latency_ns s));
        repeat apply conj; lia.
Qed.

Lemma accumulate_in_range dgs s :
  stats_in_range s -> stats_in_range (Kernel.accumulate dgs s).
Proof.
  unfold Kernel.accumulate. revert s.
  induction dgs as [|dg dgs IH]; intros s Hs; simpl; [exact Hs|].
  apply IH, process_order_book_in_range, Hs.
Qed.

Lemma loop_body_in_range r ls :
  stats_in_range (Kernel.st ls) ->
  stats_in_range (Kernel.st (Kernel.body_state (Kernel.loop_body r ls))).
Proof.
  intros H. destruct (loop_body_stats r ls) as [E|(data & now & _ & E)];
    rewrite E; [exact H|].
  apply process_order_book_in_range, H.
Qed.

(** In every state the socket receiver reaches, whatever the network and
    the clock deliver, all five statistics are 64-bit values and min does
    not exceed max; the totals of any sequence of datagrams are such too. *)
Theorem stats_always_in_range start script dgs :
  stats_in_range (Kernel.st (snd (Kernel.receive_loop script (loop0 start)))) /\
  stats_in_range (Kernel.accumulate dgs Kernel.stats0).
Proof.
  split; [|apply accumulate_in_range, stats0_in_range].
  assert (H : forall ls, stats_in_range (Kernel.st ls) ->
            stats_in_range (Kernel.st (snd (Kernel.receive_loop script ls)))).
  { induction script as [|it script IH]; intros ls Hls; simpl; [exact Hls|].
    destruct (Kernel.it_running it); [|exact Hls].
    pose proof (loop_body_in_range (Kernel.it_recv it) ls Hls) as Hb.
    destruct (Kernel.loop_body (Kernel.it_recv it) ls) as [l|e l|l];
      simpl in Hb |- *; [apply IH; exact Hb|exact Hb|exact Hb]. }
  apply H. apply stats0_in_range.
Qed.

Lemma wrap64_add_l a b : wrap64 (wrap64 a + b) = wrap64 (a + b).
Proof. unfold wrap64. apply Zplus_mod_idemp_l. Qed.

Lemma valid_true dg : valid dg = true <-> 32 <= Z.of_nat (length (fst dg)).
Proof. unfold valid. apply Z.leb_le. Qed.

Lemma accumulate_cons dg dgs s :
  Kernel.accumulate (dg :: dgs) s =
  Kernel.accumulate dgs
    (Kernel.process_order_book (fst dg) (Z.of_nat (length (fst dg))) (snd dg) s).
Proof. reflexivity. Qed.

Lemma accumulate_skips_invalid dgs : forall s,
  Kernel.accumulate dgs s = Kernel.accumulate (filter valid dgs) s.
Proof.
  induction dgs as [|dg dgs IH]; intros s; [reflexivity|].
  cbn [filter]. destruct (valid dg) eqn:E.
  - rewrite !accumulate_cons. apply IH.
  - rewrite accumulate_cons, process_order_book_short; [apply IH|].
    unfold valid in E. apply Z.leb_gt in E. exact E.
Qed.

Lemma filter_valid_all dgs :
  Forall (fun dg => valid dg = true) (filter valid dgs).
Proof.
  apply Forall_forall. intros dg H. apply filter_In in H. apply H.
Qed.

Lemma minimum_min a b l : minimum (Z.min a b) l = Z.min a (minimum b l).
Proof.
  unfold minimum. induction l as [|x l IH]; simpl; [reflexivity|].
  rewrite IH. lia.
Qed.

Lemma maximum_nonneg l : 0 <= maximum l.
Proof. unfold maximum. induction l as [|x l IH]; simpl; lia. Qed.

(** Counts, sums and max over datagrams that are all accepted. *)
Lemma accumulate_valid l : forall s,
  Forall (fun dg => valid dg = true) l ->
  stats_in_range s ->
  let s' := Kernel.accumulate l s in
  Kernel.packets_received s'
    = wrap64 (Kernel.packets_received s + Z.of_nat (length l)) /\
  Kernel.bytes_received s'
    = wrap64 (Kernel.bytes_received s
              + total (map (fun dg => Z.of_nat (length (fst dg))) l)) /\
  Kernel.total_latency_ns s'
    = wrap64 (Kernel.total_latency_ns s + total (map latency_of l)) /\
  Kernel.max_latency_ns s'
    = Z.max (Kernel.max_latency_ns s) (maximum (map latency_of l)).
Proof.
  induction l as [|dg l IH]; intros s Hall Hs.
  - destruct Hs as (Hp & Hb & Ht & Hmin & Hmax & Hle). simpl.
    rewrite !Z.add_0_r, !wrap64_small by lia. repeat apply conj; lia.
  - inversion Hall as [|? ? Hdg Hl]; subst.
    apply valid_true in Hdg.
    cbv zeta. rewrite accumulate_cons.
    pose proof (process_order_book_in_range (fst dg)
                  (Z.of_nat (length (fst dg))) (snd dg) s Hs) as Hs1.
    destruct (IH _ Hl Hs1) as (Ep & Eb & Et & Em).
    rewrite Ep, Eb, Et, Em.
    rewrite process_order_book_valid by exact Hdg. cbv zeta.
    cbn [Kernel.packets_received Kernel.bytes_received Kernel.total_latency_ns
         Kernel.max_latency_ns map length].
    fold (latency_of dg).
    rewrite !wrap64_add_l. unfold total, maximum. cbn [fold_right].
    repeat apply conj.
    + f_equal. lia.
    + f_equal. lia.
    + f_equal. lia.
    + destruct (Z.gtb_spec (latency_of dg) (Kernel.max_latency_ns s)); lia.
Qed.

(** Min over accepted datagrams, once a first sample has seeded it. *)
Lemma accumulate_valid_min l : forall s,
  Forall (fun dg => valid dg = true) l ->
  0 < Kernel.packets_received s ->
  Kernel.packets_received s + Z.of_nat (length l) < 2 ^ 64 ->
  Kernel.min_latency_ns (Kernel.accumulate l s)
    = minimum (Kernel.min_latency_ns s) (map latency_of l).
Proof.
  induction l as [|dg l IH]; intros s Hall Hpos Hbound; [reflexivity|].
  inversion Hall as [|? ? Hdg Hl]; subst. apply valid_true in Hdg.
  rewrite accumulate_cons.
  cbn [length] in Hbound. rewrite Nat2Z.inj_succ in Hbound.
  assert (Hstep : Kernel.process_order_book (fst dg)
                    (Z.of_nat (length (fst dg))) (snd dg) s
                  = Kernel.mkStats (Kernel.packets_received s + 1)
                      (wrap64 (Kernel.bytes_received s
                               + Z.of_nat (length (fst dg))))
                      (wrap64 (Kernel.total_latency_ns s + latency_of dg))
                      (Z.min (latency_of dg) (Kernel.min_latency_ns s))
                      (if latency_of dg >? Kernel.max_latency_ns s
                       then latency_of dg else Kernel.max_latency_ns s)).
  { rewrite process_order_book_valid by exact Hdg. cbv zeta.
    fold (latency_of dg).
    rewrite (wrap64_small (Kernel.packets_received s + 1)) by lia.
    destruct (Z.eqb_spec (Kernel.packets_received s + 1) 1); [lia|].
    cbn [orb]. f_equal.
    destruct (Z.ltb_spec (latency_of dg) (Kernel.min_latency_ns s)); lia. }
  rewrite Hstep, IH; try exact Hl;
    cbn [Kernel.packets_received Kernel.min_latency_ns]; try lia.
  cbn [map]. rewrite minimum_min. unfold minimum. cbn [fold_right]. lia.
Qed.

Lemma accumulate_totals_aux dgs :
  let s := Kernel.accumulate dgs Kernel.stats0 in
  Kernel.packets_received s = wrap64 (Z.of_nat (length (latencies dgs))) /\
  Kernel.bytes_received s = wrap64 (total (sizes dgs)) /\
  Kernel.total_latency_ns s = wrap64 (total (latencies dgs)) /\
  Kernel.max_latency_ns s = maximum (latencies dgs).
Proof.
  cbv zeta. rewrite accumulate_skips_invalid.
  destruct (accumulate_valid (filter valid dgs) Kernel.stats0
              (filter_valid_all dgs) stats0_in_range) as (Ep & Eb & Et & Em).
  unfold latencies, sizes. rewrite Ep, Eb, Et, Em, length_map.
  cbn [Kernel.stats0 Kernel.packets_received Kernel.bytes_received
       Kernel.total_latency_ns Kernel.max_latency_ns].
  repeat apply conj; try reflexivity.
  pose proof (maximum_nonneg (map latency_of (filter valid dgs))). lia.
Qed.

(** After any sequence of datagrams the statistics are: the number of
    accepted datagrams, the sum of their lengths and the sum of their
    latencies, each modulo 2^64, and the largest of their latencies (0 when
    there is none).  Datagrams shorter than 32 bytes count for nothing. *)
Theorem accumulate_totals dgs :
  let s := Kernel.accumulate dgs Kernel.stats0 in
  Kernel.packets_received s = wrap64 (Z.of_nat (length (latencies dgs))) /\
  Kernel.bytes_received s = wrap64 (total (sizes dgs)) /\
  Kernel.total_latency_ns s = wrap64 (total (latencies dgs)) /\
  Kernel.max_latency_ns s = maximum (latencies dgs).
Proof. apply accumulate_totals_aux. Qed.

Lemma accumulate_minimum_aux dgs first rest :
  latencies dgs = first :: rest ->
  Z.of_nat (length (first :: rest)) < 2 ^ 64 ->
  Kernel.min_latency_ns (Kernel.accumulate dgs Kernel.stats0)
    = minimum first rest.
Proof.
  intros Hlat Hlen. rewrite accumulate_skips_invalid.
  unfold latencies in Hlat.
  pose proof (filter_valid_all dgs) as Hall.
  destruct (filter valid dgs) as [|dg l]; [discriminate|].
  cbn [map] in Hlat. inversion Hlat as [[Hfirst Hrest]].
  inversion Hall as [|? ? Hdg Hl]; subst. apply valid_true in Hdg.
  rewrite accumulate_cons.
  cbn [length] in Hlen. rewrite Nat2Z.inj_succ, length_map in Hlen.
  assert (Hstep : Kernel.process_order_book (fst dg)
                    (Z.of_nat (length (fst dg))) (snd dg) Kernel.stats0
                  = Kernel.mkStats 1 (wrap64 (0 + Z.of_nat (length (fst dg))))
                      (wrap64 (0 + latency_of dg)) (latency_of dg)
                      (if latency_of dg >? 0 then latency_of dg else 0)).
  { rewrite process_order_book_valid by exact Hdg. reflexivity. }
  rewrite Hstep, accumulate_valid_min; try exact Hl;
    cbn [Kernel.packets_received Kernel.min_latency_ns]; lia.
Qed.

(** With at least one and fewer than 2^64 accepted datagrams, min is the
    smallest of their latencies. *)
Theorem accumulate_minimum dgs first rest :
  latencies dgs = first :: rest ->
  Z.of_nat (length (first :: rest)) < 2 ^ 64 ->
  Kernel.min_latency_ns (Kernel.accumulate dgs Kernel.stats0)
    = minimum first rest.
Proof. apply accumulate_minimum_aux. Qed.

Lemma accumulate_minimum_witness :
  Kernel.min_latency_ns
    (Kernel.accumulate [(zeros 40, 50); (zeros 16, 1); (zeros 40, 10);
                        (zeros 40, 90)] Kernel.stats0)
  = minimum 50 [10; 90].
Proof.
  apply (accumulate_minimum
           [(zeros 40, 50); (zeros 16, 1); (zeros 40, 10); (zeros 40, 90)]
           50 [10; 90]).
  - vm_compute. reflexivity.
  - simpl. lia.
Defined.

Lemma minimum_le first rest x : In x (first :: rest) -> minimum first rest <= x.
Proof.
  unfold minimum. induction rest as [|y rest IH]; simpl; intros H.
  - destruct H as [->|[]]. lia.
  - destruct H as [->|[->|H]]; [|lia|].
    + assert (fold_right Z.min x rest <= x) by (apply IH; left; reflexivity).
      lia.
    + assert (fold_right Z.min first rest <= x) by (apply IH; right; exact H).
      lia.
Qed.

Lemma minimum_in first rest : In (minimum first rest) (first :: rest).
Proof.
  unfold minimum. induction rest as [|y rest IH]; simpl; [left; reflexivity|].
  destruct (Z.min_spec y (fold_right Z.min first rest)) as [[_ E]|[_ E]];
    rewrite E.
  - right. left. reflexivity.
  - destruct IH as [H|H]; [left; exact H|right; right; exact H].
Qed.

Lemma maximum_ge l x : In x l -> x <= maximum l.
Proof.
  unfold maximum. induction l as [|y l IH]; simpl; intros H; [contradiction|].
  destruct H as [->|H]; [lia|]. specialize (IH H). lia.
Qed.

Lemma total_between l lo hi :
  (forall x, In x l -> lo <= x <= hi) ->
  Z.of_nat (length l) * lo <= total l <= Z.of_nat (length l) * hi.
Proof.
  unfold total. induction l as [|y l IH]; intros H; [simpl; lia|].
  cbn [length fold_right]. rewrite Nat2Z.inj_succ.
  assert (Hy : lo <= y <= hi) by (apply H; left; reflexivity).
  assert (Hl : forall x, In x l -> lo <= x <= hi)
    by (intros x Hx; apply H; right; exact Hx).
  specialize (IH Hl). lia.
Qed.

Lemma latencies_nonneg dgs x : In x (latencies dgs) -> 0 <= x.
Proof.
  unfold latencies. intros H. apply in_map_iff in H.
  destruct H as (dg & <- & _). apply latency_ns_range.
Qed.

(** With at least one accepted datagram, fewer than 2^64 of them and a
    latency sum below 2^64, both reports compute the average as the exact
    sum over the exact count, and it lies between the reported min and
    max. *)
Theorem average_between_min_and_max dgs first rest :
  latencies dgs = first :: rest ->
  Z.of_nat (length (first :: rest)) < 2 ^ 64 ->
  total (first :: rest) < 2 ^ 64 ->
  let s := Kernel.accumulate dgs Kernel.stats0 in
  let n := Z.of_nat (length (first :: rest)) in
  let avg := total (first :: rest) / n in
  Kernel.final_report s
    = Kernel.Final n (Kernel.bytes_received s)
        (Some (avg, minimum first rest, maximum (first :: rest))) /\
  Kernel.periodic_report s
    = Some (Kernel.Periodic n avg (minimum first rest)
              (maximum (first :: rest))) /\
  minimum first rest <= avg <= maximum (first :: rest).
Proof.
  intros Hlat Hlen Hsum. cbv zeta.
  destruct (accumulate_totals_aux dgs) as (Ep & _ & Et & Em).
  pose proof (accumulate_minimum_aux dgs first rest Hlat Hlen) as Emin.
  rewrite Hlat in Ep, Et, Em.
  set (n := Z.of_nat (length (first :: rest))) in *.
  assert (Hn : 0 < n) by (subst n; cbn [length]; lia).
  assert (Hnonneg : forall x, In x (first :: rest) -> 0 <= x)
    by (intros x Hx; apply (latencies_nonneg dgs); rewrite Hlat; exact Hx).
  assert (Hbounds : n * minimum first rest <= total (first :: rest)
                    <= n * maximum (first :: rest)).
  { apply total_between. intros x Hx. split.
    - apply minimum_le. exact Hx.
    - apply maximum_ge. exact Hx. }
  assert (Htot : 0 <= total (first :: rest)).
  { pose proof (total_between (first :: rest) 0 (maximum (first :: rest))) as T.
    fold n in T. assert (0 <= n * 0 <= total (first :: rest)); [|lia].
    split; [lia|]. apply T. intros x Hx. split;
      [apply Hnonneg; exact Hx|apply maximum_ge; exact Hx]. }
  rewrite wrap64_small in Ep by lia. rewrite wrap64_small in Et by lia.
  repeat apply conj.
  - rewrite final_report_guarded, Ep, Et, Emin, Em.
    destruct (Z.gtb_spec n 0); [reflexivity|lia].
  - rewrite periodic_report_nonzero by lia.
    rewrite Ep, Et, Emin, Em. reflexivity.
  - apply Z.div_le_lower_bound; lia.
  - apply Z.div_le_upper_bound; lia.
Qed.

Lemma average_between_min_and_max_witness :
  minimum 50 [10; 90] <= total [50; 10; 90] / 3 <= maximum [50; 10; 90].
Proof.
  apply (average_between_min_and_max
           [(zeros 40, 50); (zeros 16, 1); (zeros 40, 10); (zeros 40, 90)]
           50 [10; 90]).
  - vm_compute. reflexivity.
  - simpl. lia.
  - vm_compute. reflexivity.
Defined.

(** *** Arrival order *)

Lemma Permutation_filter_valid (l l' : list (list byte * Z)) :
  Permutation l l' -> Permutation (filter valid l) (filter valid l').
Proof.
  intros H. induction H as [|x l l' H IH|x y l|l l' l'' H1 IH1 H2 IH2].
  - constructor.
  - cbn [filter]. destruct (valid x); [constructor|]; exact IH.
  - cbn [filter]. destruct (valid x), (valid y);
      try apply Permutation_refl. apply perm_swap.
  - eapply Permutation_trans; eassumption.
Qed.

Lemma total_Permutation l l' : Permutation l l' -> total l = total l'.
Proof.
  unfold total. intros H.
  induction H as [|x l l' H IH|x y l|l l' l'' H1 IH1 H2 IH2]; simpl; lia.
Qed.

Lemma maximum_Permutation l l' : Permutation l l' -> maximum l = maximum l'.
Proof.
  unfold maximum. intros H.
  induction H as [|x l l' H IH|x y l|l l' l'' H1 IH1 H2 IH2]; simpl; lia.
Qed.

Lemma minimum_Permutation a l b l' :
  Permutation (a :: l) (b :: l') -> minimum a l = minimum b l'.
Proof.
  intros H. apply Z.le_antisymm.
  - apply minimum_le. apply (Permutation_in _ (Permutation_sym H)).
    apply minimum_in.
  - apply minimum_le. apply (Permutation_in _ H). apply minimum_in.
Qed.

(** The statistics do not depend on the order in which the datagrams
    arrive (with fewer than 2^64 accepted datagrams): any reordering of the
    same datagrams, each with its receive timestamp, gives the same five
    values. *)
Theorem accumulate_order_independent dgs dgs' :
  Permutation dgs dgs' ->
  Z.of_nat (length (latencies dgs)) < 2 ^ 64 ->
  Kernel.accumulate dgs Kernel.stats0 = Kernel.accumulate dgs' Kernel.stats0.
Proof.
  intros Hperm Hlen.
  pose proof (Permutation_filter_valid _ _ Hperm) as Hf.
  assert (Hl : Permutation (latencies dgs) (latencies dgs'))
    by (apply Permutation_map; exact Hf).
  assert (Hs : Permutation (sizes dgs) (sizes dgs'))
    by (apply Permutation_map; exact Hf).
  destruct (accumulate_totals_aux dgs) as (Ep & Eb & Et & Em).
  destruct (accumulate_totals_aux dgs') as (Ep' & Eb' & Et' & Em').
  assert (Emin : Kernel.min_latency_ns (Kernel.accumulate dgs Kernel.stats0)
               = Kernel.min_latency_ns (Kernel.accumulate dgs' Kernel.stats0)).
  { destruct (latencies dgs) as [|a l] eqn:Ea.
    - apply Permutation_nil in Hl.
      unfold latencies in Ea, Hl.
      apply map_eq_nil in Ea. apply map_eq_nil in Hl.
      rewrite (accumulate_skips_invalid dgs), (accumulate_skips_invalid dgs'),
        Ea, Hl. reflexivity.
    - destruct (latencies dgs') as [|b l'] eqn:Eb0.
      + apply Permutation_sym, Permutation_nil in Hl. discriminate.
      + rewrite (accumulate_minimum_aux dgs a l Ea Hlen).
        rewrite (accumulate_minimum_aux dgs' b l' Eb0).
        * apply minimum_Permutation. exact Hl.
        * rewrite <- (Permutation_length Hl). exact Hlen. }
  rewrite (Permutation_length Hl) in Ep.
  rewrite (total_Permutation _ _ Hs) in Eb.
  rewrite (total_Permutation _ _ Hl) in Et.
  rewrite (maximum_Permutation _ _ Hl) in Em.
  destruct (Kernel.accumulate dgs Kernel.stats0) as [p b t mn mx].
  destruct (Kernel.accumulate dgs' Kernel.stats0) as [p' b' t' mn' mx'].
  cbn [Kernel.packets_received Kernel.bytes_received Kernel.total_latency_ns
       Kernel.min_latency_ns Kernel.max_latency_ns] in *.
  congruence.
Qed.

Lemma accumulate_order_independent_witness :
  Kernel.accumulate [(zeros 40, 50); (zeros 40, 10)] Kernel.stats0
  = Kernel.accumulate [(zeros 40, 10); (zeros 40, 50)] Kernel.stats0.
Proof.
  apply accumulate_order_independent.
  - apply perm_swap.
  - simpl. lia.
Defined.

(** ** Leaving the receive loop of kernel_receiver.c *)

Lemma main_after_setup env start script :
  setup_succeeds env ->
  Kernel.main env start script =
    match Kernel.receive_loop script (loop0 start) with
    | (Kernel.Cancelled, ls) =>
        Kernel.Exit 0 (Kernel.out ls ++ [Kernel.final_report (Kernel.st ls)])
    | (Kernel.Fatal _, ls) =>
        Kernel.Exit 0 (Kernel.out ls ++ [Kernel.final_report (Kernel.st ls)])
    | (Kernel.Trapped, ls) => Kernel.Crash (Kernel.out ls)
    | (Kernel.StillRunning, ls) => Kernel.NoExit (Kernel.out ls)
    end.
Proof.
  intros (H1 & H2 & H3 & H4). unfold Kernel.main.
  destruct (Z.ltb_spec (Kernel.socket_ret env) 0); [lia|].
  destruct (Z.ltb_spec (Kernel.setsockopt_reuseaddr_ret env) 0); [lia|].
  destruct (Z.ltb_spec (Kernel.bind_ret env) 0); [lia|].
  destruct (Z.ltb_spec (Kernel.setsockopt_membership_ret env) 0); [lia|].
  reflexivity.
Qed.



(** The exit status of the socket receiver is decided by its set-up alone:
    when one of the four set-up calls fails it returns 1, having printed no
    statistics; when all succeed, every exit, whatever happens in the
    receive loop, returns 0 after printing a final report. *)
Theorem kernel_exit_status_decided_by_setup env start script :
  (~ setup_succeeds env -> Kernel.main env start script = Kernel.Exit 1 []) /\
  (setup_succeeds env ->
   forall status printed,
     Kernel.main env start script = Kernel.Exit status printed ->
     status = 0 /\
     exists lines totals, printed = lines ++ [Kernel.final_report totals]) /\
  (Kernel.main env start script = Kernel.Exit 1 [] <-> ~ setup_succeeds env).
Proof.
  assert (Hfail : ~ setup_succeeds env ->
                  Kernel.main env start script = Kernel.Exit 1 []).
  { intros H. apply kernel_setup_failure.
    unfold setup_succeeds in H. lia. }
  assert (Hok : setup_succeeds env ->
    forall status printed,
      Kernel.main env start script = Kernel.Exit status printed ->
      status = 0 /\
      exists lines totals, printed = lines ++ [Kernel.final_report totals]).
  { intros Henv status printed Hmain.
    rewrite (main_after_setup env start script Henv) in Hmain.
    destruct (Kernel.receive_loop script (loop0 start)) as [[| e | |] ls];
      inversion Hmain; subst;
      (split; [reflexivity|exists (Kernel.out ls), (Kernel.st ls); reflexivity]). }
  split; [exact Hfail|]. split; [exact Hok|]. split; [|exact Hfail].
  intros Hmain Henv.
  destruct (Hok Henv 1 [] Hmain) as [H _]. discriminate.
Qed.

Lemma kernel_exit_status_decided_by_setup_witness :
  0 = 0 /\
  exists lines totals,
    [Kernel.Final 0 0 None] = lines ++ [Kernel.final_report totals].
Proof.
  refine (proj1 (proj2 (kernel_exit_status_decided_by_setup setup_ok
                          (seconds 0) recv_fails)) _ 0 [Kernel.Final 0 0 None] _).
  - unfold setup_succeeds. simpl. lia.
  - vm_compute. reflexivity.
Defined.

Lemma packets_after_process data len recv_time s :
  0 < Kernel.packets_received s < 2 ^ 64 - 1 ->
  Kernel.packets_received s
  <= Kernel.packets_received (Kernel.process_order_book data len recv_time s)
  <= Kernel.packets_received s + 1.
Proof.
  intros H. destruct (Z.lt_ge_cases len 32) as [Hshort|Hvalid].
  - rewrite process_order_book_short by exact Hshort. lia.
  - rewrite process_order_book_valid by exact Hvalid. cbv zeta.
    cbn [Kernel.packets_received]. rewrite wrap64_small by lia. lia.
Qed.

(** Once a valid message has been counted, the periodic report cannot
    divide by zero: from a state with a positive count, no continuation of
    the run (short of 2^64 iterations) ends in the division trap. *)
Theorem no_trap_once_counted script : forall ls,
  0 < Kernel.packets_received (Kernel.st ls) ->
  Kernel.packets_received (Kernel.st ls) + Z.of_nat (length script) < 2 ^ 64 ->
  trapped (fst (Kernel.receive_loop script ls)) = false.
Proof.
  induction script as [|it script IH]; intros ls Hpos Hbound; [reflexivity|].
  cbn [length] in Hbound. rewrite Nat2Z.inj_succ in Hbound.
  cbn [Kernel.receive_loop].
  destruct (Kernel.it_running it); [|reflexivity].
  destruct (Kernel.it_recv it) as [data now|errno]; unfold Kernel.loop_body.
  - pose proof (packets_after_process data (Z.of_nat (length data))
                  (Kernel.get_timestamp_ns now) (Kernel.st ls)
                  ltac:(lia)) as Hp.
    set (s := Kernel.process_order_book data (Z.of_nat (length data))
                (Kernel.get_timestamp_ns now) (Kernel.st ls)) in *.
    destruct (_ >=? _).
    + rewrite periodic_report_nonzero by lia.
      apply IH; cbn [Kernel.st]; lia.
    + apply IH; cbn [Kernel.st]; lia.
  - destruct (errno =? Kernel.EINTR); [|reflexivity].
    apply IH; lia.
Qed.

Lemma no_trap_once_counted_witness :
  trapped
    (fst (Kernel.receive_loop short_first
            (Kernel.mkLoop (Kernel.mkStats 1 40 50 50 50) 0 []))) = false.
Proof.
  apply no_trap_once_counted; simpl; lia.
Defined.

(** ** Initialisation of udp_multicast_receiver.c *)

Lemma port_init_zero_iff_aux env :
  Dpdk.port_init env = 0 <-> port_init_succeeds env.
Proof.
  unfold Dpdk.port_init, port_init_succeeds.
  destruct (Dpdk.dev_is_valid_port env); cbn [negb];
    [|split; [lia|intros (H & _); discriminate]].
  destruct (Z.eqb_spec (Dpdk.dev_info_get_ret env) 0); cbn [negb];
    [|split; [lia|tauto]].
  destruct (Z.eqb_spec (Dpdk.dev_configure_ret env) 0); cbn [negb];
    [|split; [lia|tauto]].
  destruct (Z.eqb_spec (Dpdk.adjust_nb_rx_tx_desc_ret env) 0); cbn [negb];
    [|split; [lia|tauto]].
  destruct (Z.ltb_spec (Dpdk.rx_queue_setup_ret env) 0); [split; [lia|lia]|].
  destruct (Z.ltb_spec (Dpdk.tx_queue_setup_ret env) 0); [split; [lia|lia]|].
  destruct (Z.ltb_spec (Dpdk.dev_start_ret env) 0); [split; [lia|lia]|].
  destruct (Z.eqb_spec (Dpdk.promiscuous_enable_ret env) 0); cbn [negb];
    [|split; [lia|tauto]].
  split; [intros _; repeat apply conj; auto|reflexivity].
Qed.

(** [port_init] returns 0 exactly when the port is valid and every
    configuration call succeeds: the info, configure, descriptor and
    promiscuous calls must return 0, the queue set-ups and the device start
    only need a non-negative value. *)
Theorem port_init_zero_iff env :
  Dpdk.port_init env = 0 <-> port_init_succeeds env.
Proof. apply port_init_zero_iff_aux. Qed.

(** The burst receiver exits with EXIT_FAILURE, printing no statistics,
    exactly when EAL initialisation, port detection, pool creation or
    [port_init] fails; otherwise, when the polling loop returns, it prints
    the statistics once and exits with 0. *)
Theorem dpdk_exit_failure_iff env script :
  (Dpdk.main env script = Dpdk.Exit Dpdk.EXIT_FAILURE None
   <-> ~ eal_setup_succeeds env) /\
  (eal_setup_succeeds env ->
   Dpdk.main env script =
     match Dpdk.lcore_main script lcore0 with
     | Dpdk.Returned ls =>
         Dpdk.Exit 0 (Some (Dpdk.print_stats (Dpdk.tsc_hz env) (Dpdk.stats ls)))
     | Dpdk.Polling _ => Dpdk.NoExit
     end).
Proof.
  assert (Hok : eal_setup_succeeds env ->
    Dpdk.main env script =
      match Dpdk.lcore_main script lcore0 with
      | Dpdk.Returned ls =>
          Dpdk.Exit 0 (Some (Dpdk.print_stats (Dpdk.tsc_hz env) (Dpdk.stats ls)))
      | Dpdk.Polling _ => Dpdk.NoExit
      end).
  { intros (H1 & H2 & H3 & H4). apply port_init_zero_iff_aux in H4.
    unfold Dpdk.main.
    destruct (Z.ltb_spec (Dpdk.rte_eal_init_ret env) 0); [lia|].
    destruct (Z.eqb_spec (Dpdk.dev_count_avail env) 0); [contradiction|].
    rewrite H3, H4. reflexivity. }
  split; [|exact Hok]. split.
  - intros Hmain Henv. rewrite (Hok Henv) in Hmain.
    destruct (Dpdk.lcore_main script lcore0); discriminate.
  - intros Hfail. unfold Dpdk.main.
    destruct (Z.ltb_spec (Dpdk.rte_eal_init_ret env) 0); [reflexivity|].
    destruct (Z.eqb_spec (Dpdk.dev_count_avail env) 0); [reflexivity|].
    destruct (Dpdk.mbuf_pool_is_null env) eqn:Hpool; [reflexivity|].
    destruct (Z.eqb_spec (Dpdk.port_init (Dpdk.port_env env)) 0) as [Hp|Hp];
      [|reflexivity].
    exfalso. apply Hfail. apply port_init_zero_iff_aux in Hp.
    unfold eal_setup_succeeds. auto.
Qed.

(** ** The polling loop as one sequence of frames *)

Lemma process_burst_app a b ls :
  Dpdk.process_burst (a ++ b) ls
  = Dpdk.process_burst b (Dpdk.process_burst a ls).
Proof. unfold Dpdk.process_burst. apply fold_left_app. Qed.

Lemma lcore_main_is_one_burst_aux script : forall ls,
  Dpdk.lcore_state_of (Dpdk.lcore_main script ls)
  = Dpdk.process_burst (polled script) ls.
Proof.
  induction script as [|p script IH]; intros ls; [reflexivity|].
  cbn [Dpdk.lcore_main polled].
  destruct (Dpdk.poll_force_quit p); [reflexivity|].
  rewrite process_burst_app.
  destruct (Dpdk.poll_bufs p) as [|q bufs] eqn:E.
  - cbn [length Z.of_nat Z.eqb]. rewrite IH. reflexivity.
  - assert (Hnz : (Z.of_nat (length (q :: bufs)) =? 0) = false)
      by (apply Z.eqb_neq; cbn [length]; lia).
    rewrite Hnz, IH. reflexivity.
Qed.

(** The state of the polling loop depends only on the sequence of buffers
    received before [force_quit] is read: how [rte_eth_rx_burst] cuts the
    sequence into bursts, and how many polls come back empty, makes no
    difference. *)
Theorem lcore_main_is_one_burst script : forall ls,
  Dpdk.lcore_state_of (Dpdk.lcore_main script ls)
  = Dpdk.process_burst (polled script) ls.
Proof. apply lcore_main_is_one_burst_aux. Qed.

(** Over a whole run, the buffers handed to [rte_pktmbuf_free] are exactly
    the buffers received before [force_quit] is read, in the order
    received: none is leaked and none is released twice. *)
Theorem lcore_main_frees_every_buffer script :
  Dpdk.freed (Dpdk.lcore_state_of (Dpdk.lcore_main script lcore0))
  = map handle_of (polled script).
Proof.
  rewrite lcore_main_is_one_burst_aux, process_burst_freed. reflexivity.
Qed.

Lemma process_burst_stats bufs : forall ls,
  0 <= Dpdk.packets (Dpdk.stats ls) < 2 ^ 64 ->
  0 <= Dpdk.bytes (Dpdk.stats ls) < 2 ^ 64 ->
  0 <= Dpdk.total_latency_cycles (Dpdk.stats ls) < 2 ^ 64 ->
  let s' := Dpdk.stats (Dpdk.process_burst bufs ls) in
  Dpdk.packets s'
    = wrap64 (Dpdk.packets (Dpdk.stats ls)
              + Z.of_nat (length (filter is_udp bufs))) /\
  Dpdk.bytes s'
    = wrap64 (Dpdk.bytes (Dpdk.stats ls)
              + total (map (fun p => wrap32 (Dpdk.pkt_len (Dpdk.rx_mbuf p)))
                         (filter is_udp bufs))) /\
  Dpdk.total_latency_cycles s'
    = wrap64 (Dpdk.total_latency_cycles (Dpdk.stats ls)
              + total (map cycles (filter is_udp bufs))).
Proof.
  unfold Dpdk.process_burst.
  induction bufs as [|p bufs IH]; intros ls Hp Hb Ht.
  - simpl. rewrite !Z.add_0_r, !wrap64_small by assumption. auto.
  - cbn [fold_left filter]. cbv zeta.
    destruct (Dpdk.udp_payload (Dpdk.rx_mbuf p)) as [[payload len]|] eqn:E;
      [assert (Hu : is_udp p = true) by (unfold is_udp; rewrite E; reflexivity)
      |assert (Hu : is_udp p = false) by (unfold is_udp; rewrite E; reflexivity)];
      rewrite Hu.
    + pose proof (process_packet_udp p ls payload len E) as Hs.
      destruct (IH (Dpdk.process_packet p ls)) as (Ep & Eb & Et);
        try (rewrite Hs; cbn [Dpdk.packets Dpdk.bytes Dpdk.total_latency_cycles];
             apply wrap64_range).
      rewrite Ep, Eb, Et, Hs.
      cbn [Dpdk.packets Dpdk.bytes Dpdk.total_latency_cycles map length].
      rewrite !wrap64_add_l. unfold total. cbn [fold_right]. fold (cycles p).
      repeat apply conj; apply (f_equal wrap64); lia.
    + pose proof (process_packet_other p ls E) as Hs.
      destruct (IH (Dpdk.process_packet p ls)) as (Ep & Eb & Et);
        try (rewrite Hs; assumption).
      rewrite Ep, Eb, Et, Hs. auto.
Qed.

Lemma is_udp_passes_header_tests p : is_udp p = passes_header_tests p.
Proof.
  unfold is_udp, passes_header_tests.
  change 2048 with Dpdk.RTE_ETHER_TYPE_IPV4.
  change 17 with Dpdk.IPPROTO_UDP.
  destruct (Z.eqb_spec (be_u16 (Dpdk.mbuf_data (Dpdk.rx_mbuf p)) 12)
              Dpdk.RTE_ETHER_TYPE_IPV4) as [H1|H1].
  - destruct (Z.eqb_spec (byte_at (Dpdk.mbuf_data (Dpdk.rx_mbuf p)) 23)
                Dpdk.IPPROTO_UDP) as [H2|H2].
    + rewrite (udp_payload_some _ H1 H2). reflexivity.
    + rewrite udp_payload_none by (right; exact H2). reflexivity.
  - rewrite udp_payload_none by (left; exact H1). reflexivity.
Qed.

(** After a run of the polling loop over buffers whose memory covers byte
    23, the statistics are the number of buffers whose bytes 12-13 hold
    0x0800 and whose byte 23 holds 17, the sum of their [pkt_len] and the
    sum of their processing cycles, each modulo 2^64; every other buffer
    counts for nothing.  The two bytes are read from the buffer memory: for
    a frame of at least 24 bytes they are its EtherType and IPv4 protocol. *)
Theorem lcore_main_totals script :
  Forall (fun p => (24 <= length (Dpdk.mbuf_data (Dpdk.rx_mbuf p)))%nat)
    (polled script) ->
  let s := Dpdk.stats (Dpdk.lcore_state_of (Dpdk.lcore_main script lcore0)) in
  let counted := filter passes_header_tests (polled script) in
  Dpdk.packets s = wrap64 (Z.of_nat (length counted)) /\
  Dpdk.bytes s
    = wrap64 (total (map (fun p => wrap32 (Dpdk.pkt_len (Dpdk.rx_mbuf p)))
                       counted)) /\
  Dpdk.total_latency_cycles s = wrap64 (total (map cycles counted)).
Proof.
  intros _. cbv zeta. rewrite lcore_main_is_one_burst_aux.
  rewrite <- (filter_ext _ _ is_udp_passes_header_tests).
  apply (process_burst_stats (polled script) lcore0); simpl; lia.
Qed.

Lemma lcore_main_totals_witness :
  Dpdk.packets
    (Dpdk.stats
       (Dpdk.lcore_state_of
          (Dpdk.lcore_main
             [Dpdk.mkPoll false [arp_packet; stale_packet]; Dpdk.mkPoll true []]
             lcore0)))
  = wrap64
      (Z.of_nat
         (length
            (filter passes_header_tests
               (polled [Dpdk.mkPoll false [arp_packet; stale_packet];
                        Dpdk.mkPoll true []])))).
Proof.
  refine (proj1 (lcore_main_totals
                   [Dpdk.mkPoll false [arp_packet; stale_packet];
                    Dpdk.mkPoll true []] _)).
  repeat constructor; vm_compute; repeat constructor.
Defined.

(** ** Edges of the frame decoder *)



(** The decoder reads the EtherType at bytes 12-13, the protocol at byte 23
    and the UDP length at bytes 38-39, and takes the payload from byte 42:
    two buffers of at least 40 bytes that agree there decode alike, whatever
    their other header bytes hold.  In particular the IPv4 header-length
    field is not used to find the UDP header. *)
Theorem udp_payload_reads_fixed_offsets m m' :
  (40 <= length (Dpdk.mbuf_data m))%nat ->
  (40 <= length (Dpdk.mbuf_data m'))%nat ->
  (forall i, In i [12; 13; 23; 38; 39]%nat ->
     byte_at (Dpdk.mbuf_data m) i = byte_at (Dpdk.mbuf_data m') i) ->
  skipn 42 (Dpdk.mbuf_data m) = skipn 42 (Dpdk.mbuf_data m') ->
  Dpdk.udp_payload m = Dpdk.udp_payload m'.
Proof.
  intros _ _ Hb Hs.
  assert (E12 : be_u16 (Dpdk.mbuf_data m) 12 = be_u16 (Dpdk.mbuf_data m') 12)
    by (unfold be_u16; rewrite (Hb 12%nat), (Hb 13%nat) by (simpl; tauto);
        reflexivity).
  assert (E38 : be_u16 (Dpdk.mbuf_data m) 38 = be_u16 (Dpdk.mbuf_data m') 38)
    by (unfold be_u16; rewrite (Hb 38%nat), (Hb 39%nat) by (simpl; tauto);
        reflexivity).
  assert (E23 : byte_at (Dpdk.mbuf_data m) 23 = byte_at (Dpdk.mbuf_data m') 23)
    by (apply Hb; simpl; tauto).
  destruct (Z.eq_dec (be_u16 (Dpdk.mbuf_data m) 12) Dpdk.RTE_ETHER_TYPE_IPV4)
    as [H1|H1].
  - destruct (Z.eq_dec (byte_at (Dpdk.mbuf_data m) 23) Dpdk.IPPROTO_UDP)
      as [H2|H2].
    + rewrite (udp_payload_some m H1 H2).
      rewrite E12 in H1. rewrite E23 in H2.
      rewrite (udp_payload_some m' H1 H2), Hs, E38. reflexivity.
    + rewrite (udp_payload_none m) by (right; exact H2).
      rewrite E23 in H2.
      rewrite (udp_payload_none m') by (right; exact H2). reflexivity.
  - rewrite (udp_payload_none m) by (left; exact H1).
    rewrite E12 in H1.
    rewrite (udp_payload_none m') by (left; exact H1). reflexivity.
Qed.

Lemma udp_payload_reads_fixed_offsets_witness :
  Dpdk.udp_payload (frame_with_ihl x45) = Dpdk.udp_payload (frame_with_ihl x4f).
Proof.
  apply udp_payload_reads_fixed_offsets.
  - vm_compute. repeat constructor.
  - vm_compute. repeat constructor.
  - intros i Hi. simpl in Hi.
    destruct Hi as [<-|[<-|[<-|[<-|[<-|[]]]]]]; reflexivity.
  - reflexivity.
Defined.

(** ** The buffer of simple_chardev.c *)

Lemma overwrite_length (src dst : list byte) :
  (length src <= length dst)%nat ->
  length (Chardev.overwrite src dst) = length dst.
Proof.
  intros H. unfold Chardev.overwrite. rewrite length_app, length_skipn. lia.
Qed.

Lemma store_length (buf : list byte) i b :
  (i < length buf)%nat -> length (Chardev.store buf i b) = length buf.
Proof.
  intros H. unfold Chardev.store.
  rewrite length_app, length_firstn. cbn [length]. rewrite length_skipn. lia.
Qed.

Lemma bytes_to_write_range (user : list byte) :
  0 <= Z.min (wrap64 (Z.of_nat (length user)))
         (wrap64 (Chardev.BUFFER_SIZE - 1)) <= 255.
Proof.
  pose proof (wrap64_range (Z.of_nat (length user))).
  change (wrap64 (Chardev.BUFFER_SIZE - 1)) with 255. lia.
Qed.

Lemma bytes_to_write_exact (user : list byte) :
  Z.of_nat (length user) < 2 ^ 64 ->
  Z.min (wrap64 (Z.of_nat (length user))) (wrap64 (Chardev.BUFFER_SIZE - 1))
  = Z.of_nat (Nat.min (length user) 255).
Proof.
  intros H. rewrite wrap64_small by lia.
  change (wrap64 (Chardev.BUFFER_SIZE - 1)) with 255. lia.
Qed.

Lemma device_write_keeps_bounds_lemma user offset copy d :
  device_ok d ->
  device_ok (Chardev.write_device (Chardev.device_write user offset copy d)).
Proof.
  intros [Hlen Hsize].
  pose proof (bytes_to_write_range user) as Hn.
  unfold Chardev.device_write.
  set (n := Z.min (wrap64 (Z.of_nat (length user)))
              (wrap64 (Chardev.BUFFER_SIZE - 1))) in *.
  destruct copy as [|partial]; cbn [Chardev.write_device];
    unfold device_ok; cbn [Chardev.device_buffer Chardev.buffer_size].
  - split; [|exact Hn].
    assert (Hf : (length (firstn (Z.to_nat n) user) <= 255)%nat)
      by (rewrite length_firstn; lia).
    rewrite store_length; rewrite overwrite_length; lia.
  - split; [|exact Hsize].
    assert (Hf : (length (firstn (Z.to_nat n) partial) <= 255)%nat)
      by (rewrite length_firstn; lia).
    rewrite overwrite_length; lia.
Qed.

(** Whatever is written, and whether or not the copy from user space
    faults, the buffer keeps its 256 bytes and the stored length stays at
    255 or less; a faulting write returns -EFAULT and leaves the stored
    length as it was. *)
Theorem device_write_keeps_bounds user offset copy d :
  device_ok d ->
  device_ok (Chardev.write_device (Chardev.device_write user offset copy d)) /\
  (forall partial,
     copy = Chardev.CopyFault partial ->
     Chardev.write_ret (Chardev.device_write user offset copy d)
       = - Chardev.EFAULT /\
     Chardev.buffer_size
       (Chardev.write_device (Chardev.device_write user offset copy d))
       = Chardev.buffer_size d).
Proof.
  intros Hd. split; [apply device_write_keeps_bounds_lemma; exact Hd|].
  intros partial ->. split; reflexivity.
Qed.

Lemma device_write_keeps_bounds_witness :
  device_ok
    (Chardev.write_device
       (Chardev.device_write (zeros 300) 0 (Chardev.CopyFault (zeros 7))
          Chardev.device0)).
Proof.
  refine (proj1 (device_write_keeps_bounds (zeros 300) 0
                   (Chardev.CopyFault (zeros 7)) Chardev.device0 _)).
  unfold device_ok. simpl. lia.
Defined.

Lemma sint64_small x : - 2 ^ 63 <= x < 2 ^ 63 -> Chardev.sint64 x = x.
Proof.
  intros H. unfold Chardev.sint64. rewrite Z.mod_small by lia. lia.
Qed.

Lemma firstn_store_prefix (buf : list byte) n b :
  (n <= length buf)%nat -> firstn n (Chardev.store buf n b) = firstn n buf.
Proof.
  intros H. unfold Chardev.store.
  rewrite firstn_app, length_firstn.
  replace (n - Nat.min n (length buf))%nat with 0%nat by lia.
  rewrite firstn_firstn, Nat.min_id. cbn [firstn]. apply app_nil_r.
Qed.

Lemma firstn_overwrite (src dst : list byte) :
  firstn (length src) (Chardev.overwrite src dst) = src.
Proof.
  unfold Chardev.overwrite. rewrite firstn_app, Nat.sub_diag.
  cbn [firstn]. rewrite app_nil_r. apply firstn_all.
Qed.

Lemma skipn_store (buf : list byte) n b :
  (n < length buf)%nat ->
  skipn (S n) (Chardev.store buf n b) = skipn (S n) buf.
Proof.
  intros H. unfold Chardev.store.
  rewrite skipn_app, length_firstn.
  rewrite (skipn_all2 (firstn n buf)) by (rewrite length_firstn; lia).
  replace (S n - Nat.min n (length buf))%nat with 1%nat by lia.
  reflexivity.
Qed.

Lemma skipn_overwrite (src dst : list byte) k :
  (length src <= k)%nat ->
  skipn k (Chardev.overwrite src dst) = skipn k dst.
Proof.
  intros H. unfold Chardev.overwrite.
  rewrite skipn_app, (skipn_all2 src) by exact H.
  cbn [app]. rewrite skipn_skipn. f_equal. lia.
Qed.

(** What a successful write leaves behind. *)
Lemma device_write_copied user offset d :
  device_ok d ->
  Z.of_nat (length user) < 2 ^ 64 ->
  let n := Nat.min (length user) 255 in
  let w := Chardev.device_write user offset Chardev.Copied d in
  Chardev.write_ret w = Z.of_nat n /\
  Chardev.write_offset w = offset /\
  Chardev.buffer_size (Chardev.write_device w) = Z.of_nat n /\
  firstn n (Chardev.device_buffer (Chardev.write_device w)) = firstn 255 user /\
  nth n (Chardev.device_buffer (Chardev.write_device w)) xff = x00 /\
  skipn (S n) (Chardev.device_buffer (Chardev.write_device w))
    = skipn (S n) (Chardev.device_buffer d).
Proof.
  intros [Hlen Hsize] Huser. cbv zeta.
  unfold Chardev.device_write. rewrite (bytes_to_write_exact user Huser).
  cbn [Chardev.write_ret Chardev.write_offset Chardev.write_device
       Chardev.buffer_size Chardev.device_buffer].
  rewrite Nat2Z.id.
  set (n := Nat.min (length user) 255).
  set (src := firstn n user).
  assert (Hsrc : length src = n) by (subst src n; rewrite length_firstn; lia).
  assert (Hov : length (Chardev.overwrite src (Chardev.device_buffer d))
                = 256%nat) by (rewrite overwrite_length; lia).
  assert (Hsrc255 : src = firstn 255 user).
  { subst src n. destruct (Nat.le_ge_cases (length user) 255) as [H|H].
    - rewrite Nat.min_l by exact H.
      rewrite !firstn_all2 by lia. reflexivity.
    - rewrite Nat.min_r by exact H. reflexivity. }
  repeat apply conj.
  - apply sint64_small. lia.
  - reflexivity.
  - reflexivity.
  - rewrite firstn_store_prefix by lia.
    rewrite <- Hsrc at 1. rewrite firstn_overwrite. exact Hsrc255.
  - unfold Chardev.store. rewrite app_nth2; rewrite length_firstn; [|lia].
    replace (n - Nat.min n (length (Chardev.overwrite src
                                      (Chardev.device_buffer d))))%nat
      with 0%nat by lia.
    reflexivity.
  - rewrite skipn_store by lia. apply skipn_overwrite. lia.
Qed.

(** A successful write stores at most 255 bytes: it returns and records
    min(len, 255), keeps the first 255 bytes of the user data at the start
    of the buffer, puts a NUL right after them, leaves the file position
    alone and leaves the bytes after the NUL as they were. *)
Theorem device_write_truncates user offset d :
  device_ok d ->
  Z.of_nat (length user) < 2 ^ 64 ->
  let n := Nat.min (length user) 255 in
  let w := Chardev.device_write user offset Chardev.Copied d in
  Chardev.write_ret w = Z.of_nat n /\
  Chardev.write_offset w = offset /\
  Chardev.buffer_size (Chardev.write_device w) = Z.of_nat n /\
  firstn n (Chardev.device_buffer (Chardev.write_device w)) = firstn 255 user /\
  nth n (Chardev.device_buffer (Chardev.write_device w)) xff = x00 /\
  skipn (S n) (Chardev.device_buffer (Chardev.write_device w))
    = skipn (S n) (Chardev.device_buffer d).
Proof. apply device_write_copied. Qed.

Lemma device_write_truncates_witness :
  Chardev.write_ret
    (Chardev.device_write (zeros 300) 0 Chardev.Copied Chardev.device0)
  = Z.of_nat (Nat.min (length (zeros 300)) 255).
Proof.
  refine (proj1 (device_write_truncates (zeros 300) 0 Chardev.device0 _ _)).
  - unfold device_ok. simpl. lia.
  - simpl. lia.
Defined.

(** A read that does not fault, at a file position that is not negative. *)
Lemma device_read_ok len offset d :
  device_ok d ->
  0 <= len < 2 ^ 64 ->
  0 <= offset < 2 ^ 63 ->
  let stored :=
    firstn (Z.to_nat (Chardev.buffer_size d)) (Chardev.device_buffer d) in
  let data := firstn (Z.to_nat len) (skipn (Z.to_nat offset) stored) in
  let r := Chardev.device_read len offset 0 d in
  Chardev.read_data r = Some data /\
  Chardev.read_ret r = Z.of_nat (length data) /\
  Chardev.read_offset r = offset + Z.of_nat (length data) /\
  Z.of_nat (length data) <= len /\
  offset + Z.of_nat (length data) <= Z.max offset (Chardev.buffer_size d).
Proof.
  intros [Hlen Hsize] Hl Ho. cbv zeta.
  set (size := Chardev.buffer_size d) in *.
  set (buf := Chardev.device_buffer d) in *.
  assert (Hstored : length (firstn (Z.to_nat size) buf) = Z.to_nat size)
    by (rewrite length_firstn; lia).
  unfold Chardev.device_read. fold size buf.
  rewrite (wrap64_small offset) by lia.
  destruct (Z.geb_spec offset size) as [Heof|Hin].
  - rewrite (skipn_all2 (firstn (Z.to_nat size) buf)) by lia.
    rewrite firstn_nil. cbn [Chardev.read_data Chardev.read_ret
      Chardev.read_offset length Z.of_nat].
    repeat apply conj; try reflexivity; lia.
  - rewrite (wrap64_small len), (wrap64_small (size - offset)) by lia.
    cbn [Z.eqb negb Chardev.read_data Chardev.read_ret Chardev.read_offset].
    set (n := Z.min len (size - offset)).
    assert (Hdata : firstn (Z.to_nat len)
                      (skipn (Z.to_nat offset) (firstn (Z.to_nat size) buf))
                    = firstn (Z.to_nat n) (skipn (Z.to_nat offset) buf)).
    { rewrite skipn_firstn_comm, firstn_firstn. f_equal. lia. }
    rewrite Hdata.
    assert (Hcount : Z.of_nat (length (firstn (Z.to_nat n)
                                         (skipn (Z.to_nat offset) buf))) = n)
      by (rewrite length_firstn, length_skipn; lia).
    rewrite Hcount, !sint64_small by lia.
    repeat apply conj; try reflexivity; lia.
Qed.

(** A read never delivers more than [len] bytes nor anything past the
    stored length: it hands out the stored bytes from the file position on,
    cut to [len], returns their number and advances the position by it; at
    or past the stored length it returns 0 and the position stays. *)
Theorem device_read_window len offset d :
  device_ok d ->
  0 <= len < 2 ^ 64 ->
  0 <= offset < 2 ^ 63 ->
  let stored :=
    firstn (Z.to_nat (Chardev.buffer_size d)) (Chardev.device_buffer d) in
  let data := firstn (Z.to_nat len) (skipn (Z.to_nat offset) stored) in
  let r := Chardev.device_read len offset 0 d in
  Chardev.read_data r = Some data /\
  Chardev.read_ret r = Z.of_nat (length data) /\
  Chardev.read_offset r = offset + Z.of_nat (length data) /\
  Z.of_nat (length data) <= len /\
  offset + Z.of_nat (length data) <= Z.max offset (Chardev.buffer_size d).
Proof. apply device_read_ok. Qed.

Lemma device_read_window_witness :
  Chardev.read_data
    (Chardev.device_read 2 1 0
       (Chardev.mkDevice ([x61; x62; x63; x64] ++ zeros 252) 3))
  = Some (firstn (Z.to_nat 2)
            (skipn (Z.to_nat 1)
               (firstn (Z.to_nat 3) ([x61; x62; x63; x64] ++ zeros 252)))).
Proof.
  refine (proj1 (device_read_window 2 1
                   (Chardev.mkDevice ([x61; x62; x63; x64] ++ zeros 252) 3)
                   _ _ _)).
  - unfold device_ok. simpl. lia.
  - lia.
  - lia.
Defined.

Lemma firstn_chunks {A} a b : forall (l : list A),
  firstn a l ++ firstn b (skipn (length (firstn a l)) l) = firstn (a + b) l.
Proof.
  induction a as [|a IH]; intros l; [reflexivity|].
  destruct l as [|x l]; [simpl; rewrite firstn_nil; reflexivity|].
  cbn [firstn length skipn app Nat.add]. f_equal. apply IH.
Qed.

(** Reading in two pieces gives what one read of the combined length
    gives: the bytes of a read of [a] followed by a read of [b] at the new
    position are the bytes of one read of [a + b], and both ways end at the
    same position. *)
Theorem device_read_chunks a b offset d :
  device_ok d ->
  0 <= a -> 0 <= b -> a + b < 2 ^ 64 ->
  0 <= offset < 2 ^ 63 ->
  let r1 := Chardev.device_read a offset 0 d in
  let r2 := Chardev.device_read b (Chardev.read_offset r1) 0 d in
  let r := Chardev.device_read (a + b) offset 0 d in
  (exists d1 d2,
     Chardev.read_data r1 = Some d1 /\ Chardev.read_data r2 = Some d2 /\
     Chardev.read_data r = Some (d1 ++ d2)) /\
  Chardev.read_ret r = Chardev.read_ret r1 + Chardev.read_ret r2 /\
  Chardev.read_offset r = Chardev.read_offset r2.
Proof.
  intros Hd Ha Hb Hab Ho. cbv zeta.
  destruct (device_read_ok a offset d Hd ltac:(lia) Ho)
    as (D1 & R1 & O1 & L1 & M1).
  destruct (device_read_ok (a + b) offset d Hd ltac:(lia) Ho)
    as (D & R & O & _ & _).
  set (stored := firstn (Z.to_nat (Chardev.buffer_size d))
                   (Chardev.device_buffer d)) in *.
  set (X := skipn (Z.to_nat offset) stored) in *.
  set (d1 := firstn (Z.to_nat a) X) in *.
  assert (Ho1 : 0 <= Chardev.read_offset (Chardev.device_read a offset 0 d)
                < 2 ^ 63).
  { rewrite O1. destruct Hd as [_ Hsize]. lia. }
  destruct (device_read_ok b _ d Hd ltac:(lia) Ho1) as (D2 & R2 & O2 & _ & _).
  fold stored in D2, R2, O2.
  assert (Hskip : skipn (Z.to_nat (Chardev.read_offset
                                     (Chardev.device_read a offset 0 d)))
                    stored
                  = skipn (length d1) X).
  { rewrite O1. subst X. rewrite skipn_skipn. f_equal. lia. }
  rewrite Hskip in D2, R2, O2.
  assert (Hcat : d1 ++ firstn (Z.to_nat b) (skipn (length d1) X)
                 = firstn (Z.to_nat (a + b)) X).
  { subst d1. rewrite firstn_chunks. f_equal. lia. }
  repeat apply conj.
  - exists d1, (firstn (Z.to_nat b) (skipn (length d1) X)).
    rewrite D1, D2, D, Hcat. auto.
  - rewrite R, R1, R2, <- Hcat, length_app. lia.
  - rewrite O, O2, O1, <- Hcat, length_app. lia.
Qed.

Lemma device_read_chunks_witness :
  Chardev.read_offset
    (Chardev.device_read (1 + 5) 0 0
       (Chardev.mkDevice ([x61; x62; x63; x64] ++ zeros 252) 3))
  = Chardev.read_offset
      (Chardev.device_read 5
         (Chardev.read_offset
            (Chardev.device_read 1 0 0
               (Chardev.mkDevice ([x61; x62; x63; x64] ++ zeros 252) 3)))
         0 (Chardev.mkDevice ([x61; x62; x63; x64] ++ zeros 252) 3)).
Proof.
  refine (proj2 (proj2 (device_read_chunks 1 5 0
                   (Chardev.mkDevice ([x61; x62; x63; x64] ++ zeros 252) 3)
                   _ _ _ _ _))).
  - unfold device_ok. simpl. lia.
  - lia.
  - lia.
  - lia.
  - lia.
Defined.

(** Write then read: after a successful write of at most 255 bytes,
    whatever the device held before and whatever file position the write
    was given, a read of at least that many bytes from position 0 returns
    exactly the bytes written and moves the position to their number; the
    next read returns 0. *)
Theorem device_write_read_round_trip user woffset len d :
  device_ok d ->
  (length user <= 255)%nat ->
  Z.of_nat (length user) <= len < 2 ^ 64 ->
  let d' := Chardev.write_device
              (Chardev.device_write user woffset Chardev.Copied d) in
  let r := Chardev.device_read len 0 0 d' in
  let r' := Chardev.device_read len (Chardev.read_offset r) 0 d' in
  Chardev.read_data r = Some user /\
  Chardev.read_ret r = Z.of_nat (length user) /\
  Chardev.read_offset r = Z.of_nat (length user) /\
  Chardev.read_data r' = Some [] /\
  Chardev.read_ret r' = 0.
Proof.
  intros Hd Hu Hl. cbv zeta.
  destruct (device_write_copied user woffset d Hd ltac:(lia))
    as (_ & _ & Hsize & Hfirst & _ & _).
  pose proof (device_write_keeps_bounds_lemma user woffset Chardev.Copied d Hd)
    as Hd'.
  set (d' := Chardev.write_device
               (Chardev.device_write user woffset Chardev.Copied d)) in *.
  rewrite Nat.min_l in Hsize, Hfirst by exact Hu.
  rewrite (firstn_all2 user) in Hfirst by lia.
  destruct (device_read_ok len 0 d' Hd' ltac:(lia) ltac:(lia))
    as (D & R & O & _ & _).
  rewrite Hsize, Nat2Z.id, Hfirst in D, R, O.
  cbn [Z.to_nat skipn] in D, R, O.
  rewrite (firstn_all2 user) in D, R, O by lia.
  assert (Ho : 0 <= Chardev.read_offset (Chardev.device_read len 0 0 d')
               < 2 ^ 63) by (rewrite O; lia).
  destruct (device_read_ok len _ d' Hd' ltac:(lia) Ho) as (D' & R' & _ & _ & _).
  rewrite Hsize, Nat2Z.id, Hfirst, O in D', R'.
  cbn [Z.add] in D', R'. rewrite Nat2Z.id in D', R'.
  rewrite skipn_all, firstn_nil in D', R'.
  cbn [Z.add] in O. rewrite O.
  repeat apply conj; try assumption; reflexivity.
Qed.

Lemma device_write_read_round_trip_witness :
  Chardev.read_data
    (Chardev.device_read 100 0 0
       (Chardev.write_device
          (Chardev.device_write [x68; x69] 7 Chardev.Copied
             (Chardev.mkDevice ([x61; x62; x63; x64] ++ zeros 252) 4))))
  = Some [x68; x69].
Proof.
  refine (proj1 (device_write_read_round_trip [x68; x69] 7 100
                   (Chardev.mkDevice ([x61; x62; x63; x64] ++ zeros 252) 4)
                   _ _ _)).
  - unfold device_ok. simpl. lia.
  - simpl. lia.
  - simpl. lia.
Defined.

(** ** Registration of simple_chardev.c *)

Lemma resource_eqb_refl r : Chardev.resource_eqb r r = true.
Proof.
  destruct r; cbn [Chardev.resource_eqb]; rewrite ?Z.eqb_refl; reflexivity.
Qed.

Lemma release_head r live : Chardev.release r (r :: live) = live.
Proof. cbn [Chardev.release]. rewrite resource_eqb_refl. reflexivity. Qed.

(** An error pointer carries an errno between -4095 and -1. *)
Lemma PTR_ERR_range ptr :
  Chardev.IS_ERR ptr = true ->
  -4095 <= Chardev.sint32 (Chardev.PTR_ERR ptr) <= -1.
Proof.
  unfold Chardev.IS_ERR, Chardev.PTR_ERR, Chardev.sint64. intros H.
  apply Z.geb_le in H.
  change (wrap64 (- Chardev.MAX_ERRNO)) with (2 ^ 64 - 4095) in H.
  pose proof (wrap64_range ptr) as Hr.
  assert (E : (ptr + 2 ^ 63) mod 2 ^ 64 = wrap64 ptr - 2 ^ 63).
  { rewrite <- Zplus_mod_idemp_l. fold (wrap64 ptr).
    replace (wrap64 ptr + 2 ^ 63)
      with (wrap64 ptr - 2 ^ 63 + 1 * 2 ^ 64) by lia.
    rewrite Z.mod_add by lia. apply Z.mod_small. lia. }
  rewrite E. unfold Chardev.sint32.
  rewrite Z.mod_small by lia. lia.
Qed.

Ltac init_failure_case :=
  repeat apply conj;
  solve [ lia | tauto | reflexivity
        | intros (? & ? & ?); first [discriminate | lia]
        | intros; lia
        | intros; split; [lia | reflexivity] ].

(** [chardev_init] returns 0 exactly when the three registrations succeed,
    and then the character device, the class and the device node are
    registered and [chardev_exit] takes exactly these three away again.  On
    failure it returns a negative value and whatever it had registered up to
    the failing step has been released: the kernel is left as it was. *)
Theorem chardev_init_leaves_no_leak env m live :
  let r := Chardev.chardev_init env m live in
  (Chardev.init_ret r = 0 <-> init_succeeds env) /\
  (init_succeeds env ->
     Chardev.init_live r
       = Chardev.Device (Chardev.class_create_ret env)
           (Chardev.sint32 (Chardev.register_chrdev_ret env))
         :: Chardev.Class (Chardev.class_create_ret env)
         :: Chardev.Chrdev (Chardev.sint32 (Chardev.register_chrdev_ret env))
         :: live /\
     Chardev.chardev_exit (Chardev.init_module r) (Chardev.init_live r) = live) /\
  (~ init_succeeds env ->
     Chardev.init_ret r < 0 /\ Chardev.init_live r = live).
Proof.
  cbv zeta. unfold Chardev.chardev_init, init_succeeds.
  set (major := Chardev.sint32 (Chardev.register_chrdev_ret env)).
  destruct (Z.ltb_spec major 0) as [Hmajor|Hmajor].
  { cbn [Chardev.init_ret Chardev.init_live]. init_failure_case. }
  destruct (Chardev.IS_ERR (Chardev.class_create_ret env)) eqn:Hclass.
  { pose proof (PTR_ERR_range _ Hclass).
    cbn [Chardev.init_ret Chardev.init_live]. rewrite release_head.
    init_failure_case. }
  destruct (Chardev.IS_ERR (Chardev.device_create_ret env)) eqn:Hdev.
  { pose proof (PTR_ERR_range _ Hdev).
    cbn [Chardev.init_ret Chardev.init_live]. rewrite !release_head.
    init_failure_case. }
  cbn [Chardev.init_ret Chardev.init_live Chardev.init_module].
  unfold Chardev.chardev_exit.
  cbn [Chardev.major_number Chardev.chardev_class].
  rewrite !release_head.
  repeat apply conj; try reflexivity; tauto.
Qed.
